(** * kenchi: the detector contract and the anomaly-score plot

    A shallow embedding of

    - [src/kenchi/base.py]                    ([Module KenchiBase]),
    - [src/kenchi/outlier_detection/base.py]  ([Module OutlierDetection]),
    - [src/kenchi/visualization.py], function [plot_anomaly_score]
                                              ([Module Visualization]),

    together with the numpy / scikit-learn operations these files call.

    Python floats and numpy [float64] are IEEE 754 binary64 numbers; they are
    modelled by the Standard Library's [spec_float] at precision 53 and
    maximal exponent 1024, so that NaN, the infinities, signed zeros and
    rounding behave as they do in the program.  A method of a detector is a
    computation in a state-and-exception monad over the detector object. *)

From Stdlib Require Import ZArith List Bool Lia.
From Stdlib Require String.
From Stdlib Require Import Floats.SpecFloat.
Import ListNotations.

Local Open Scope Z_scope.

(** ** binary64 *)

Module Float64.

Definition prec : Z := 53.
Definition emax : Z := 1024.

Definition float64 : Type := spec_float.

Definition nan : float64 := S754_nan.

(** [x > y], [x <= y], [x == y] of Python and numpy: all three are false
    as soon as one operand is NaN. *)
Definition float_gt (x y : float64) : bool := SFltb y x.
Definition float_le (x y : float64) : bool := SFleb x y.
Definition float_eq (x y : float64) : bool := SFeqb x y.

Definition is_nan (x : float64) : bool :=
  match x with S754_nan => true | _ => false end.

(** [np.isfinite]: neither NaN nor an infinity. *)
Definition is_finite (x : float64) : bool :=
  match x with
  | S754_zero _ | S754_finite _ _ _ => true
  | S754_infinity _ | S754_nan => false
  end.

Definition add : float64 -> float64 -> float64 := SFadd prec emax.
Definition sub : float64 -> float64 -> float64 := SFsub prec emax.
Definition mul : float64 -> float64 -> float64 := SFmul prec emax.
Definition div : float64 -> float64 -> float64 := SFdiv prec emax.

(** Conversion of an integer to the nearest binary64 (ties to even), as
    numpy does before a true division and Python before mixed arithmetic. *)
Definition of_int (n : Z) : float64 := binary_normalize prec emax n 0 false.

Definition zero : float64 := S754_zero false.
Definition one : float64 := Eval cbv in of_int 1.
Definition two : float64 := Eval cbv in of_int 2.

(** The literal [1.1]: the binary64 nearest to 11/10, 0x3FF199999999999A. *)
Definition one_point_one : float64 := S754_finite false 4953959590107546 (-52).

End Float64.

Import Float64.

(** ** Python: exceptions and methods *)

Module Python.

(** The exceptions the modelled code and its collaborators raise. *)
Inductive exn : Type :=
| NotFittedError      (* sklearn.exceptions.NotFittedError *)
| AttributeError      (* reading an attribute the object does not have *)
| ValueError          (* validation failures, shape mismatches, empty reductions *)
| AxisError.          (* numpy: axis out of bounds *)

Inductive result (A : Type) : Type :=
| Ok (a : A)
| Raise (e : exn).
Arguments Ok {A} a.
Arguments Raise {A} e.

Definition is_ok {A} (r : result A) : bool :=
  match r with Ok _ => true | Raise _ => false end.

(** A method call on an object of type [S]: it returns or raises, and
    leaves the object in a possibly different state either way. *)
Definition M (S A : Type) : Type := S -> result A * S.

Definition ret {S A} (a : A) : M S A := fun s => (Ok a, s).

Definition bind {S A B} (m : M S A) (k : A -> M S B) : M S B :=
  fun s => match m s with
           | (Ok a, s') => k a s'
           | (Raise e, s') => (Raise e, s')
           end.

Definition raise {S A} (e : exn) : M S A := fun s => (Raise e, s).

(** A call of a collaborator that does not touch the object. *)
Definition lift {S A} (r : result A) : M S A := fun s => (r, s).

(** [self.<attr>] for an attribute that exists only once it has been set. *)
Definition getattr {S A} (field : S -> option A) : M S A :=
  fun s => match field s with
           | Some a => (Ok a, s)
           | None => (Raise AttributeError, s)
           end.

(** The value a call returns and the object it leaves behind. *)
Definition value {S A} (m : M S A) (s : S) : result A := fst (m s).
Definition exec {S A} (m : M S A) (s : S) : S := snd (m s).

(** Bind on plain results, for chains of pure collaborator calls. *)
Definition rbind {A B} (r : result A) (k : A -> result B) : result B :=
  match r with Ok a => k a | Raise e => Raise e end.

Fixpoint mapM {A B} (f : A -> result B) (l : list A) : result (list B) :=
  match l with
  | [] => Ok []
  | x :: l' => rbind (f x) (fun y => rbind (mapM f l') (fun ys => Ok (y :: ys)))
  end.

End Python.

Import Python.

Declare Scope py_scope.
Delimit Scope py_scope with py.
Notation "x <- m ;; k" := (bind m (fun x => k))
  (at level 61, m at next level, right associativity) : py_scope.
Notation "' p <- m ;; k" := (bind m (fun p => k))
  (at level 61, p pattern, m at next level, right associativity) : py_scope.

(** ** numpy *)

Module Numpy.

(** Arrays of one or two dimensions.  A two-dimensional array carries its
    number of columns, which an array without rows still has. *)
Inductive ndarray (A : Type) : Type :=
| Arr1 (v : list A)
| Arr2 (ncols : nat) (rows : list (list A)).
Arguments Arr1 {A} v.
Arguments Arr2 {A} ncols rows.

Definition well_formed {A} (a : ndarray A) : Prop :=
  match a with
  | Arr1 _ => True
  | Arr2 m rows => Forall (fun r => length r = m) rows
  end.

(** The elements, row by row. *)
Definition elements {A} (a : ndarray A) : list A :=
  match a with
  | Arr1 v => v
  | Arr2 _ rows => concat rows
  end.

(** Elementwise application, shape preserved. *)
Definition amap {A B} (f : A -> B) (a : ndarray A) : ndarray B :=
  match a with
  | Arr1 v => Arr1 (map f v)
  | Arr2 m rows => Arr2 m (map (map f) rows)
  end.

(** What a detector may hold as its threshold: a Python float (numpy's
    [float64] is a subclass of it) or a one-dimensional array. *)
Inductive threshold : Type :=
| PyFloat (t : float64)
| PyArray (ts : list float64).

(** [isinstance(t, float)] *)
Definition isinstance_float (t : threshold) : bool :=
  match t with PyFloat _ => true | PyArray _ => false end.

Fixpoint zip_with {A B C} (f : A -> B -> C) (xs : list A) (ys : list B) : list C :=
  match xs, ys with
  | x :: xs', y :: ys' => f x y :: zip_with f xs' ys'
  | _, _ => []
  end.

(** Broadcasting of two axes: equal lengths pair up, an axis of length one
    is stretched, anything else is a [ValueError]. *)
Definition broadcast {A B C} (f : A -> B -> C) (xs : list A) (ys : list B)
  : result (list C) :=
  if Nat.eqb (length xs) (length ys) then Ok (zip_with f xs ys)
  else match xs, ys with
       | [x], _ => Ok (map (f x) ys)
       | _, [y] => Ok (map (fun x => f x y) xs)
       | _, _ => Raise ValueError
       end.

Definition broadcast_len (m k : nat) : option nat :=
  if Nat.eqb m k then Some m
  else if Nat.eqb m 1 then Some k
  else if Nat.eqb k 1 then Some m
  else None.

(** [a > t] *)
Definition greater (a : ndarray float64) (t : threshold) : result (ndarray bool) :=
  match t with
  | PyFloat t => Ok (amap (fun x => float_gt x t) a)
  | PyArray ts =>
      match a with
      | Arr1 v => rbind (broadcast float_gt v ts) (fun c => Ok (Arr1 c))
      | Arr2 m rows =>
          match broadcast_len m (length ts) with
          | Some m' =>
              rbind (mapM (fun r => broadcast float_gt r ts) rows)
                    (fun c => Ok (Arr2 m' c))
          | None => Raise ValueError
          end
      end
  end.

(** [a <= t] for a scalar [t] *)
Definition less_equal (a : ndarray float64) (t : float64) : ndarray bool :=
  amap (fun x => float_le x t) a.

(** [np.any(a, axis=1)] *)
Definition any_axis1 (a : ndarray bool) : result (ndarray bool) :=
  match a with
  | Arr1 _ => Raise AxisError
  | Arr2 _ rows => Ok (Arr1 (map (existsb (fun b => b)) rows))
  end.

(** [a.astype(np.int32)] on a boolean array *)
Definition astype_int32 (a : ndarray bool) : ndarray Z :=
  amap (fun b : bool => if b then 1 else 0) a.

(** [np.where(c, x, y)] for scalars [x] and [y] *)
Definition where_ {A} (c : ndarray bool) (x y : A) : ndarray A :=
  amap (fun b : bool => if b then x else y) c.

(** [np.maximum]: NaN wins. *)
Definition maximum (x y : float64) : float64 :=
  if is_nan x then x else if is_nan y then y else if float_gt y x then y else x.

(** [np.minimum]: NaN wins. *)
Definition minimum (x y : float64) : float64 :=
  if is_nan x then x else if is_nan y then y else if float_gt x y then y else x.

(** [np.max] (alias [np.amax]) of a one-dimensional array; the reduction
    has no identity. *)
Definition amax (v : list float64) : result float64 :=
  match v with
  | [] => Raise ValueError
  | x :: v' => Ok (fold_left maximum v' x)
  end.

(** [np.arange(n)] *)
Definition arange (n : nat) : list Z := map Z.of_nat (seq 0 n).

(** [np.ravel] of a nested list *)
Definition ravel {A} (m : list (list A)) : list A := concat m.

(** Arithmetic of [int64]: two's complement wrap-around. *)
Definition wrap64 (z : Z) : Z := (z + 2 ^ 63) mod 2 ^ 64 - 2 ^ 63.
Definition add_int64 (a b : Z) : Z := wrap64 (a + b).

(** True division of two [int64]: both become [float64] first. *)
Definition true_divide (a b : Z) : float64 := div (of_int a) (of_int b).

End Numpy.

Import Numpy.

(** ** scikit-learn *)

Module Sklearn.

(** [check_is_fitted(self, attr)]: [NotFittedError] unless the attribute
    has been set. *)
Definition check_is_fitted {S A} (field : S -> option A) : M S unit :=
  fun s => match field s with
           | Some _ => (Ok tt, s)
           | None => (Raise NotFittedError, s)
           end.

(** The input validators.  They are collaborators of the detector layer:
    each returns the converted input or raises, and what they accept is
    theirs to decide. *)
Class Validation (data : Type) : Type := {
  check_array : data -> result data;
  check_X_y : data -> list Z -> result (data * list Z)
}.

(** A prediction handed to a metric: one-dimensional, or a single column
    that is flattened; any other shape is refused. *)
Definition column_or_1d (y : ndarray Z) : result (list Z) :=
  match y with
  | Arr1 v => Ok v
  | Arr2 1 rows => Ok (concat rows)
  | Arr2 _ _ => Raise ValueError
  end.

(** Number of samples whose true label is [a] and predicted label is [b]. *)
Definition count_pairs (a b : Z) (y_true y_pred : list Z) : Z :=
  Z.of_nat (length (filter (fun tp => (fst tp =? a) && (snd tp =? b))
                           (combine y_true y_pred))).

(** [confusion_matrix(y_true, y_pred, labels)]: entry (i, j) counts the
    samples of true class [labels[i]] predicted as [labels[j]]; samples
    with a label outside [labels] are dropped.  Inputs of different length
    are refused, and so are [labels] none of which occurs in [y_true]. *)
Definition confusion_matrix (y_true : list Z) (y_pred : ndarray Z) (labels : list Z)
  : result (list (list Z)) :=
  rbind (column_or_1d y_pred) (fun yp =>
    if negb (Nat.eqb (length y_true) (length yp)) then Raise ValueError
    else if forallb (fun l => negb (existsb (Z.eqb l) y_true)) labels
         then Raise ValueError
         else Ok (map (fun a => map (fun b => count_pairs a b y_true yp) labels)
                      labels)).

End Sklearn.

Import Sklearn.

Local Open Scope py_scope.

(** ** src/kenchi/base.py *)

Module KenchiBase.

(** A detector object: the learned [_threshold], absent until [fit] sets
    it, and the remaining attributes, which the base class never reads. *)
Record self (P : Type) : Type := mk_self {
  _threshold : option threshold;
  params : P
}.
Arguments mk_self {P} _ _.
Arguments _threshold {P} _.
Arguments params {P} _.

(** The abstract methods of [BaseDetector].  [fit] returns [self], so the
    call chained on its result runs on the same object. *)
Class Detector (data P : Type) : Type := {
  compute_anomaly_score : data -> M (self P) (ndarray float64);
  fit : data -> option (list Z) -> M (self P) unit
}.

Section BaseDetector.
Context {data P : Type} `{Validation data} `{Detector data P}.

(** [BaseDetector.predict] *)
Definition predict (X : data) : M (self P) (ndarray Z) :=
  X <- lift (check_array X) ;;
  t <- getattr _threshold ;;
  if isinstance_float t then
    s <- compute_anomaly_score X ;;
    t <- getattr _threshold ;;
    c <- lift (greater s t) ;;
    ret (astype_int32 c)
  else
    s <- compute_anomaly_score X ;;
    t <- getattr _threshold ;;
    c <- lift (greater s t) ;;
    a <- lift (any_axis1 c) ;;
    ret (astype_int32 a).

(** [BaseDetector.fit_predict] *)
Definition fit_predict (X : data) (y : option (list Z)) : M (self P) (ndarray Z) :=
  _ <- fit X y ;;
  predict X.

(** [DetectorMixin.score] *)
Definition score (X : data) (y : list Z) : M (self P) float64 :=
  Xy <- lift (check_X_y X y) ;;
  let X := fst Xy in
  let y := snd Xy in
  p <- predict X ;;
  cnf_matrix <- lift (confusion_matrix y p [1; 0]) ;;
  match ravel cnf_matrix with
  | [tp; fn; fp; tn] =>
      let r0 := true_divide tn (add_int64 fp tn) in
      let r1 := true_divide tp (add_int64 tp fn) in
      ret (div (mul (mul two r0) r1) (add r0 r1))
  | _ => raise ValueError
  end.

End BaseDetector.

End KenchiBase.

(** ** src/kenchi/outlier_detection/base.py *)

Module OutlierDetection.

(** A detector object: the learned [threshold_], absent until [fit] sets
    it, and the remaining attributes. *)
Record self (P : Type) : Type := mk_self {
  threshold_ : option float64;
  params : P
}.
Arguments mk_self {P} _ _.
Arguments threshold_ {P} _.
Arguments params {P} _.

(** The abstract methods [predict] and [fit_predict] call.  [X = None]
    is a legal argument of [anomaly_score]; [fit] returns [self]. *)
Class Detector (data P : Type) : Type := {
  fit : data -> M (self P) unit;
  anomaly_score : option data -> M (self P) (ndarray float64)
}.

Section BaseDetector.
Context {data P : Type} `{Detector data P}.

(** [BaseDetector.predict] *)
Definition predict (X : option data) (threshold : option float64)
  : M (self P) (ndarray Z) :=
  _ <- check_is_fitted threshold_ ;;
  threshold <- match threshold with
               | None => getattr threshold_
               | Some t => ret t
               end ;;
  s <- anomaly_score X ;;
  ret (where_ (less_equal s threshold) 1 (-1)).

(** [BaseDetector.fit_predict]: [y] is ignored, and [predict] is called
    without [X]. *)
Definition fit_predict (X : data) (y : option (list Z)) (threshold : option float64)
  : M (self P) (ndarray Z) :=
  _ <- fit X ;;
  predict None threshold.

End BaseDetector.

End OutlierDetection.

(** ** src/kenchi/visualization.py: [plot_anomaly_score] *)

Module Visualization.

Import String.

(** An axes handle: one the caller passed in, or the one [plt.subplots]
    creates. *)
Inductive axes : Type :=
| given_axes (id : nat)
| new_axes.

Inductive bins_spec : Type :=
| bins_int (n : nat)
| bins_str (s : string)
| bins_array (edges : list float64).

Definition limits : Type := (float64 * float64)%type.

(** The calls into the plotting library.  Drawing itself belongs to the
    library; what the function contributes is which calls it makes, with
    which arguments and in which order. *)
Inductive call : Type :=
| subplots (figsize : option limits)
| set_title (ax : axes) (s : string)
| set_xlabel (ax : axes) (s : string)
| set_ylabel (ax : axes) (s : string)
| hlines (ax : axes) (y xmin xmax : float64)
| set_xlim (ax : axes) (lim : limits)
| set_ylim (ax : axes) (lim : limits)
| grid (ax : axes) (b : bool)
| plot (ax : axes) (xlocs : list Z) (ys : list float64)
| make_axes_locatable (ax : axes)
| append_axes (ax : axes)
| hist_set_ylim (lim : limits)
| hist_set_tick_params
| hist_grid (b : bool)
| hist (ys : list float64) (bins : bins_spec)
| savefig (ax : axes) (filepath : string).

(** The plotting library is a collaborator: a call into it returns or
    raises, and which of the two is the library's to decide. *)
Class Backend : Type := {
  perform : call -> result unit
}.

(** The keyword arguments; [**kwargs] is left empty. *)
Record options : Type := {
  ax : option axes;
  bins : bins_spec;
  figsize : option limits;
  filepath : option string;
  opt_grid : bool;
  opt_hist : bool;
  threshold : option float64;
  title : option string;
  xlabel : option string;
  xlim : option limits;
  ylabel : option string;
  ylim : option limits
}.

(** The defaults of the signature. *)
Definition defaults : options := {|
  ax := None;
  bins := bins_str "fd"%string;
  figsize := None;
  filepath := None;
  opt_grid := true;
  opt_hist := true;
  threshold := None;
  title := None;
  xlabel := Some "Samples"%string;
  xlim := None;
  ylabel := Some "Anomaly score"%string;
  ylim := None
|}.

Section Plot.
Context `{Backend}.

(** A call into the library.  The state is the trace of the calls made so
    far; the last one of a trace may be the call that raised. *)
Definition emit (c : call) : M (list call) unit :=
  fun log => (perform c, log ++ [c]).

(** [if o is not None: f(o)] *)
Definition when_given {A} (o : option A) (f : A -> call) : M (list call) unit :=
  match o with
  | Some a => emit (f a)
  | None => ret tt
  end.

Definition plot_anomaly_score (anomaly_score : list float64) (o : options)
  : M (list call) axes :=
  let n_samples := List.length anomaly_score in
  let xlocs := arange n_samples in
  ax <- match ax o with
        | None => _ <- emit (subplots (figsize o)) ;; ret new_axes
        | Some a => ret a
        end ;;
  let xlim := match xlim o with
              | None => (zero, sub (of_int (Z.of_nat n_samples)) one)
              | Some l => l
              end in
  ylim <- match ylim o with
          | None => m <- lift (amax anomaly_score) ;;
                    ret (zero, mul one_point_one m)
          | Some l => ret l
          end ;;
  _ <- when_given (title o) (set_title ax) ;;
  _ <- when_given (xlabel o) (set_xlabel ax) ;;
  _ <- when_given (ylabel o) (set_ylabel ax) ;;
  _ <- when_given (threshold o) (fun t => hlines ax t (fst xlim) (snd xlim)) ;;
  _ <- emit (set_xlim ax xlim) ;;
  _ <- emit (set_ylim ax ylim) ;;
  _ <- emit (grid ax (opt_grid o)) ;;
  _ <- emit (plot ax xlocs anomaly_score) ;;
  _ <- (if opt_hist o then
          _ <- emit (make_axes_locatable ax) ;;
          _ <- emit (append_axes ax) ;;
          _ <- emit (hist_set_ylim ylim) ;;
          _ <- emit hist_set_tick_params ;;
          _ <- emit (hist_grid (opt_grid o)) ;;
          emit (hist anomaly_score (bins o))
        else ret tt) ;;
  _ <- when_given (filepath o) (savefig ax) ;;
  ret ax.

End Plot.

End Visualization.

(** ** Concrete detectors

    The base classes are abstract; these small detectors implement their
    abstract methods and serve as the concrete inputs of the examples. *)

Module Examples.

(** Samples as rows of features. *)
Definition data : Type := list (list float64).

(** Validators that refuse an input without samples, samples with an entry
    that is NaN or infinite, and labels that do not match the samples in
    number. *)
Definition all_finite (X : data) : bool := forallb (forallb is_finite) X.

#[export] Instance validation : Validation data := {|
  check_array X :=
    match X with
    | [] => Raise ValueError
    | _ => if all_finite X then Ok X else Raise ValueError
    end;
  check_X_y X y :=
    match X with
    | [] => Raise ValueError
    | _ => if all_finite X && Nat.eqb (length X) (length y)
           then Ok (X, y) else Raise ValueError
    end
|}.

(** A plotting library that refuses axis limits that are NaN or infinite
    with [ValueError], as matplotlib does, and performs every other call. *)
Definition limits_finite (lim : Visualization.limits) : bool :=
  is_finite (fst lim) && is_finite (snd lim).

#[export] Instance checks_limits : Visualization.Backend := {|
  Visualization.perform c :=
    match c with
    | Visualization.set_xlim _ lim
    | Visualization.set_ylim _ lim
    | Visualization.hist_set_ylim lim =>
        if limits_finite lim then Ok tt else Raise ValueError
    | _ => Ok tt
    end
|}.

(** The largest finite binary64. *)
Definition max_float : float64 := Eval cbv in SFmax_float prec emax.

(** A detector for [KenchiBase] whose boundary is given at construction
    and copied to [_threshold] by [fit].  With a scalar boundary the score
    of a sample is its first feature; with a per-column boundary the
    scores are the features themselves. *)
#[export] Instance feature_detector : KenchiBase.Detector data threshold := {|
  KenchiBase.compute_anomaly_score X := fun s =>
    match KenchiBase.params s with
    | PyFloat _ => (Ok (Arr1 (map (hd zero) X)), s)
    | PyArray _ => (Ok (Arr2 (length (hd [] X)) X), s)
    end;
  KenchiBase.fit X y := fun s =>
    (Ok tt, KenchiBase.mk_self (Some (KenchiBase.params s)) (KenchiBase.params s))
|}.

(** A nearest-neighbour detector for [OutlierDetection] on samples of one
    feature: the score of a sample is its distance to the nearest training
    sample.  Without [X] it scores the training samples, each against the
    other ones when [leave_one_out] is set. *)
Record nn_params : Type := {
  boundary : float64;
  leave_one_out : bool;
  train : list float64
}.

Definition dist (x y : float64) : float64 := SFabs (sub x y).

Definition nearest (x : float64) (pts : list float64) : float64 :=
  fold_left (fun m p => minimum m (dist x p)) pts (S754_infinity false).

Fixpoint others_nearest (before after : list float64) : list float64 :=
  match after with
  | [] => []
  | x :: rest => nearest x (rev before ++ rest) :: others_nearest (x :: before) rest
  end.

#[export] Instance nn_detector : OutlierDetection.Detector (list float64) nn_params := {|
  OutlierDetection.fit X := fun s =>
    let p := OutlierDetection.params s in
    (Ok tt, OutlierDetection.mk_self
              (Some (boundary p))
              {| boundary := boundary p;
                 leave_one_out := leave_one_out p;
                 train := X |});
  OutlierDetection.anomaly_score X := fun s =>
    let p := OutlierDetection.params s in
    match X with
    | Some X => (Ok (Arr1 (map (fun x => nearest x (train p)) X)), s)
    | None =>
        (Ok (Arr1 (if leave_one_out p
                   then others_nearest [] (train p)
                   else map (fun x => nearest x (train p)) (train p))), s)
    end
|}.

Definition half : float64 := Eval cbv in div one two.
Definition three : float64 := Eval cbv in of_int 3.
Definition ten : float64 := Eval cbv in of_int 10.

(** Detector objects before and after [fit]. *)
Definition feature_unfitted (t : threshold) : KenchiBase.self threshold :=
  KenchiBase.mk_self None t.

Definition feature_fitted (t : threshold) : KenchiBase.self threshold :=
  KenchiBase.mk_self (Some t) t.

Definition nn_unfitted (b : float64) (loo : bool) : OutlierDetection.self nn_params :=
  OutlierDetection.mk_self
    None {| boundary := b; leave_one_out := loo; train := [] |}.

Definition nn_fitted (b : float64) (loo : bool) (X : list float64)
  : OutlierDetection.self nn_params :=
  OutlierDetection.mk_self
    (Some b) {| boundary := b; leave_one_out := loo; train := X |}.

End Examples.

Import Examples.

(** ** The score in the spec's words

    The confusion matrix of [y] versus the prediction [p], counted sample by
    sample, the two rates taken from it, and their harmonic mean. *)

Module ScoreSpec.

Fixpoint count (a b : Z) (y p : list Z) : Z :=
  match y, p with
  | yi :: y', pi :: p' =>
      (if (yi =? a) && (pi =? b) then 1 else 0) + count a b y' p'
  | _, _ => 0
  end.

Definition tp (y p : list Z) : Z := count 1 1 y p.
Definition fn (y p : list Z) : Z := count 1 0 y p.
Definition fp (y p : list Z) : Z := count 0 1 y p.
Definition tn (y p : list Z) : Z := count 0 0 y p.

Definition specificity (y p : list Z) : float64 :=
  div (of_int (tn y p)) (of_int (fp y p + tn y p)).

Definition sensitivity (y p : list Z) : float64 :=
  div (of_int (tp y p)) (of_int (tp y p + fn y p)).

Definition harmonic_mean (r0 r1 : float64) : float64 :=
  div (mul (mul two r0) r1) (add r0 r1).

End ScoreSpec.

(** ** Per-column thresholds in the spec's words *)

Module PredictSpec.

(** Some column of the row exceeds its boundary. *)
Definition exceeds_somewhere (row ts : list float64) : Prop :=
  exists j x t,
    nth_error row j = Some x /\ nth_error ts j = Some t /\ float_gt x t = true.

End PredictSpec.

Import PredictSpec.

(** ** src/kenchi/visualization.py: [plot_graphical_model] *)

Module GraphicalModel.

Import String.

Definition matrix : Type := list (list float64).

(** [x != 0.] *)
Definition nonzero (x : float64) : bool := negb (float_eq x zero).

(** One row of [np.tril]: the first [n] entries stay, the others become 0. *)
Fixpoint keep (n : nat) (row : list float64) : list float64 :=
  match row with
  | [] => []
  | x :: row' =>
      match n with
      | O => zero :: keep O row'
      | S n' => x :: keep n' row'
      end
  end.

Fixpoint tril_from (i : nat) (a : matrix) : matrix :=
  match a with
  | [] => []
  | row :: a' => keep (S i) row :: tril_from (S i) a'
  end.

(** [np.tril(a)]: entry (i, j) stays when [j <= i]. *)
Definition tril (a : matrix) : matrix := tril_from 0 a.

(** [np.abs(tril.flat[tril.flat[:] != 0.])] *)
Definition edge_widths (tril : matrix) : list float64 :=
  map SFabs (filter nonzero (List.concat tril)).



(** What a call of [nx.nx_agraph.graphviz_layout] comes to: a layout, the
    [ImportError] of a missing pygraphviz, or another exception. *)
Inductive outcome (A : Type) : Type :=
| Returned (a : A)
| ImportError
| Raised (e : exn).
Arguments Returned {A} a.
Arguments ImportError {A}.
Arguments Raised {A} e.

(** The functions of networkx the plot relies on. *)
Class Networkx (graph layout : Type) : Type := {
  from_numpy_matrix : matrix -> result graph;
  degree : graph -> list Z;
  graphviz_layout : graph -> outcome layout
}.

(** The keyword arguments; [**kwargs] is left empty. *)
Record options : Type := {
  ax : option Visualization.axes;
  cmap : string;
  figsize : option Visualization.limits;
  filepath : option string;
  random_state : option Z;
  title : option string
}.

(** The defaults of the signature. *)
Definition defaults : options := {|
  ax := None;
  cmap := "Spectral"%string;
  figsize := None;
  filepath := None;
  random_state := None;
  title := Some "GGM"%string
|}.

Section Plot.
Context {graph layout : Type} `{Networkx graph layout}.

(** The calls into the plotting and graph libraries that draw. *)
Inductive call : Type :=
| subplots (figsize : option Visualization.limits)
| set_title (ax : Visualization.axes) (s : string)
| draw_networkx (G : graph) (pos : layout) (ax : Visualization.axes)
                (cmap : string) (node_size width : list float64)
| xaxis_set_tick_params (ax : Visualization.axes)
| yaxis_set_tick_params (ax : Visualization.axes)
| savefig (ax : Visualization.axes) (filepath : string).

Definition emit (c : call) : M (list call) unit :=
  fun log => (Ok tt, log ++ [c]).

Definition when_given {A} (o : option A) (f : A -> call) : M (list call) unit :=
  match o with
  | Some a => emit (f a)
  | None => ret tt
  end.


End Plot.

(** The lower triangle in plain words: row [i] cut after its entry [i]. *)
Fixpoint lower_from (i : nat) (a : matrix) : matrix :=
  match a with
  | [] => []
  | row :: a' => firstn (S i) row :: lower_from (S i) a'
  end.

Definition lower_triangle (a : matrix) : matrix := lower_from 0 a.

(** A machine without pygraphviz, and one with a layout engine that puts
    node [k] at position [k].  A graph is its adjacency matrix; the degree
    of a node counts the non-zero entries of its row. *)
Definition matrix_degree (G : matrix) : list Z :=
  map (fun row => Z.of_nat (List.length (filter nonzero row))) G.


Definition with_pygraphviz : Networkx matrix (list nat) := {|
  from_numpy_matrix m := Ok m;
  degree := matrix_degree;
  graphviz_layout G := Returned (seq 0 (List.length G))
|}.

End GraphicalModel.

(** ** Which calls create or save a figure *)

Module PlotSpec.

Definition is_subplots (c : Visualization.call) : bool :=
  match c with Visualization.subplots _ => true | _ => false end.

Definition is_savefig (c : Visualization.call) : bool :=
  match c with Visualization.savefig _ _ => true | _ => false end.

(** The axes [plot_anomaly_score] draws on: the ones passed in, or the
    ones it creates. *)
Definition drawn_axes (o : Visualization.options) : Visualization.axes :=
  match Visualization.ax o with
  | Some a => a
  | None => Visualization.new_axes
  end.

(** The calls [plot_anomaly_score] has to make, in order: the creation of
    the figure, the drawing once the limits are known, the saving. *)
Definition given {A} (x : option A) (f : A -> Visualization.call)
  : list Visualization.call :=
  match x with
  | Some a => [f a]
  | None => []
  end.

Definition creation (o : Visualization.options) : list Visualization.call :=
  match Visualization.ax o with
  | Some _ => []
  | None => [Visualization.subplots (Visualization.figsize o)]
  end.

Definition xlim_of (anomaly_score : list float64) (o : Visualization.options)
  : Visualization.limits :=
  match Visualization.xlim o with
  | Some l => l
  | None => (zero, sub (of_int (Z.of_nat (length anomaly_score))) one)
  end.

Definition ylim_of (anomaly_score : list float64) (o : Visualization.options)
  : result Visualization.limits :=
  match Visualization.ylim o with
  | Some l => Ok l
  | None => rbind (amax anomaly_score) (fun m => Ok (zero, mul one_point_one m))
  end.

Definition drawing (anomaly_score : list float64) (o : Visualization.options)
           (ylim : Visualization.limits) : list Visualization.call :=
  let ax := drawn_axes o in
  let xlim := xlim_of anomaly_score o in
  given (Visualization.title o) (Visualization.set_title ax)
  ++ given (Visualization.xlabel o) (Visualization.set_xlabel ax)
  ++ given (Visualization.ylabel o) (Visualization.set_ylabel ax)
  ++ given (Visualization.threshold o)
           (fun t => Visualization.hlines ax t (fst xlim) (snd xlim))
  ++ [Visualization.set_xlim ax xlim;
      Visualization.set_ylim ax ylim;
      Visualization.grid ax (Visualization.opt_grid o);
      Visualization.plot ax (arange (length anomaly_score)) anomaly_score]
  ++ (if Visualization.opt_hist o
      then [Visualization.make_axes_locatable ax;
            Visualization.append_axes ax;
            Visualization.hist_set_ylim ylim;
            Visualization.hist_set_tick_params;
            Visualization.hist_grid (Visualization.opt_grid o);
            Visualization.hist anomaly_score (Visualization.bins o)]
      else []).

Definition saving (o : Visualization.options) : list Visualization.call :=
  given (Visualization.filepath o) (Visualization.savefig (drawn_axes o)).

Definition planned (anomaly_score : list float64) (o : Visualization.options)
           (ylim : Visualization.limits) : list Visualization.call :=
  creation o ++ drawing anomaly_score o ylim ++ saving o.

Section Outcome.
Context `{Visualization.Backend}.

(** The error of the first call of the list that raises, if one does. *)
Fixpoint first_error (cs : list Visualization.call) : option exn :=
  match cs with
  | [] => None
  | c :: cs' =>
      match Visualization.perform c with
      | Raise e => Some e
      | Ok _ => first_error cs'
      end
  end.

(** The calls of the list that get made: all of them up to and including
    the first one that raises. *)
Fixpoint attempted (cs : list Visualization.call) : list Visualization.call :=
  match cs with
  | [] => []
  | c :: cs' =>
      c :: match Visualization.perform c with
           | Raise _ => []
           | Ok _ => attempted cs'
           end
  end.

(** What running the list comes to when [r] is the result once all its
    calls have returned. *)
Definition outcome {A} (cs : list Visualization.call) (r : result A) : result A :=
  match first_error cs with
  | Some e => Raise e
  | None => r
  end.

(** [m] makes the calls [cs], one after the other until one raises, and
    comes to [r] when all of them return. *)
Definition script {A} (m : M (list Visualization.call) A)
           (cs : list Visualization.call) (r : result A) : Prop :=
  forall log, m log = (outcome cs r, log ++ attempted cs).

End Outcome.

End PlotSpec.

(** * Properties *)

(** ** binary64 comparison and conversion *)

Section Float64Facts.

Lemma SFcompare_swap (x y : float64) :
  SFcompare y x = option_map CompOpp (SFcompare x y).
Proof.
  destruct x as [sx|sx| |sx mx ex], y as [sy|sy| |sy my ey]; simpl;
    try reflexivity;
    try (destruct sx; reflexivity); try (destruct sy; reflexivity);
    try (destruct sx, sy; reflexivity).
  assert (Pos.compare_cont Eq my mx = CompOpp (Pos.compare_cont Eq mx my)) as ->
    by (rewrite Pos.compare_cont_antisym; reflexivity).
  rewrite (Z.compare_antisym ex ey).
  destruct sx, sy; simpl; try reflexivity;
    destruct (ex ?= ey); simpl; try reflexivity;
    destruct (Pos.compare_cont Eq mx my); reflexivity.
Qed.

Lemma SFcompare_defined (x y : float64) :
  is_nan x = false -> is_nan y = false -> exists c, SFcompare x y = Some c.
Proof.
  destruct x, y; simpl; intros; try discriminate; eauto.
Qed.

(** [x == y] makes [x <= y] true and [x > y] false. *)
Lemma float_eq_le (x y : float64) : float_eq x y = true -> float_le x y = true.
Proof.
  unfold float_eq, float_le, SFeqb, SFleb. destruct (SFcompare x y) as [[]|]; congruence.
Qed.

Lemma float_eq_not_gt (x y : float64) : float_eq x y = true -> float_gt x y = false.
Proof.
  unfold float_eq, float_gt, SFeqb, SFltb. rewrite (SFcompare_swap x y).
  destruct (SFcompare x y) as [[]|]; simpl; congruence.
Qed.

(** Away from NaN, [x <= y] fails exactly when [x > y]. *)
Lemma float_le_negb_gt (x y : float64) :
  is_nan x = false -> is_nan y = false -> float_le x y = negb (float_gt x y).
Proof.
  intros Hx Hy. destruct (SFcompare_defined x y Hx Hy) as [c Hc].
  unfold float_le, float_gt, SFleb, SFltb. rewrite (SFcompare_swap x y), Hc.
  destruct c; reflexivity.
Qed.

(** With NaN on either side both [<=] and [>] are false. *)
Lemma nan_unordered (x y : float64) :
  is_nan x = true \/ is_nan y = true -> float_le x y = false /\ float_gt x y = false.
Proof.
  intros [H|H]; destruct x, y; try discriminate; split; reflexivity.
Qed.

Lemma iter_pos_nat {A} (f : A -> A) (p : positive) (x : A) :
  iter_pos f p x = Nat.iter (Pos.to_nat p) f x.
Proof.
  revert x. induction p as [p IH|p IH|]; intro x; cbn [iter_pos].
  - rewrite !IH, Pos2Nat.inj_xI.
    rewrite <- Nat.iter_succ_r, <- Nat.iter_add. f_equal. lia.
  - rewrite !IH, Pos2Nat.inj_xO, <- Nat.iter_add. f_equal. lia.
  - reflexivity.
Qed.

Lemma digits2_pos_bounds (p : positive) :
  2 ^ (Zpos (digits2_pos p) - 1) <= Zpos p < 2 ^ Zpos (digits2_pos p).
Proof.
  induction p as [p IH|p IH|]; simpl digits2_pos.
  - rewrite Pos2Z.inj_succ.
    replace (Z.succ (Zpos (digits2_pos p)) - 1)
      with (Z.succ (Zpos (digits2_pos p) - 1)) by lia.
    rewrite !Z.pow_succ_r by lia. lia.
  - rewrite Pos2Z.inj_succ.
    replace (Z.succ (Zpos (digits2_pos p)) - 1)
      with (Z.succ (Zpos (digits2_pos p) - 1)) by lia.
    rewrite !Z.pow_succ_r by lia. lia.
  - simpl. lia.
Qed.

Lemma Zdigits2_le (m D : Z) : 0 < m < 2 ^ D -> 0 <= D -> 0 < Zdigits2 m <= D.
Proof.
  intros [Hm HD] HD0. destruct m as [|p|p]; try lia. simpl.
  pose proof (digits2_pos_bounds p) as [Hlo _].
  split; [lia|].
  assert (2 ^ (Zpos (digits2_pos p) - 1) < 2 ^ D) as Hlt by lia.
  apply Z.pow_lt_mono_r_iff in Hlt; lia.
Qed.

(** One step of the right shift halves the mantissa. *)
Lemma shr_1_m (mrs : shr_record) :
  0 <= shr_m mrs -> shr_m (shr_1 mrs) = shr_m mrs / 2.
Proof.
  destruct mrs as [m r s]; simpl. intros Hm.
  destruct m as [|p|p]; try lia.
  - reflexivity.
  - destruct p as [p|p|]; simpl.
    + rewrite Pos2Z.inj_xI. apply Z.div_unique with 1; lia.
    + rewrite Pos2Z.inj_xO. apply Z.div_unique with 0; lia.
    + reflexivity.
Qed.

Lemma shr_iter_m (k : nat) (mrs : shr_record) :
  0 <= shr_m mrs ->
  shr_m (Nat.iter k shr_1 mrs) = shr_m mrs / 2 ^ Z.of_nat k.
Proof.
  intros Hm. induction k as [|k IH].
  - simpl. now rewrite Z.div_1_r.
  - rewrite Nat2Z.inj_succ, Z.pow_succ_r by lia. simpl Nat.iter.
    rewrite shr_1_m.
    + rewrite IH, Z.div_div by lia. f_equal; lia.
    + rewrite IH. apply Z.div_pos; lia.
Qed.

Lemma shr_record_of_loc_m (m : Z) (l : location) :
  shr_m (shr_record_of_loc m l) = m.
Proof. destruct l as [|[]]; reflexivity. Qed.

(** Shifting a positive mantissa into the binary64 format keeps it
    positive and raises the exponent by the digits in excess of 53. *)
Lemma shr_fexp_pos (m e : Z) (l : location) :
  0 < m -> -1074 <= e ->
  0 < shr_m (fst (shr_fexp prec emax m e l)) <= m /\
  e <= snd (shr_fexp prec emax m e l) <= e + Z.max 0 (Zdigits2 m - 53).
Proof.
  intros Hm He. unfold shr_fexp, shr, fexp, emin, prec, emax.
  destruct m as [|p|p]; try lia.
  cbn [Zdigits2].
  pose proof (digits2_pos_bounds p) as [Hlo Hhi].
  set (d := Zpos (digits2_pos p)) in *.
  destruct (Z.max (d + e - 53) (3 - 1024 - 53) - e) as [|q|q] eqn:Ek;
    cbn [fst snd]; rewrite ?shr_record_of_loc_m; try lia.
  rewrite iter_pos_nat, shr_iter_m by (rewrite shr_record_of_loc_m; lia).
  rewrite shr_record_of_loc_m, positive_nat_Z.
  assert (Zpos q = d - 53) as Eq by lia.
  assert (0 < 2 ^ Zpos q) by (apply Z.pow_pos_nonneg; lia).
  assert (2 ^ Zpos q <= 2 ^ (d - 1)) by (apply Z.pow_le_mono_r; lia).
  split; [split|lia].
  - apply Z.div_str_pos. lia.
  - apply Z.div_le_upper_bound; nia.
Qed.

Lemma round_nearest_even_bounds (m : Z) (l : location) :
  m <= round_nearest_even m l <= m + 1.
Proof.
  unfold round_nearest_even. destruct l as [|[]]; try lia.
  destruct (Z.even m); lia.
Qed.

Lemma binary_round_aux_finite (sx : bool) (mx ex : Z) (lx : location) :
  0 < mx < 2 ^ 63 -> -1074 <= ex <= 0 ->
  exists m e, binary_round_aux prec emax sx mx ex lx = S754_finite sx m e.
Proof.
  intros Hm He. unfold binary_round_aux.
  pose proof (shr_fexp_pos mx ex lx ltac:(lia) ltac:(lia)) as [H1 H2].
  pose proof (Zdigits2_le mx 63 Hm ltac:(lia)) as Hd.
  destruct (shr_fexp prec emax mx ex lx) as [mrs' e']. cbn [fst snd] in H1, H2.
  pose proof (round_nearest_even_bounds (shr_m mrs') (loc_of_shr_record mrs')) as Hr.
  set (r := round_nearest_even (shr_m mrs') (loc_of_shr_record mrs')) in *.
  pose proof (shr_fexp_pos r e' loc_Exact ltac:(lia) ltac:(lia)) as [H3 H4].
  assert (0 < r < 2 ^ 64) as Hr64 by lia.
  pose proof (Zdigits2_le r 64 Hr64 ltac:(lia)) as Hd'.
  destruct (shr_fexp prec emax r e' loc_Exact) as [mrs'' e''].
  cbn [fst snd] in H3, H4.
  destruct (shr_m mrs'') as [|m|m]; try lia.
  assert ((e'' <=? emax - prec) = true) as ->
    by (apply Z.leb_le; unfold emax, prec; lia).
  eauto.
Qed.

(** A positive [int64] converts to a finite, non-zero binary64. *)
Lemma of_int_finite (n : Z) :
  0 < n < 2 ^ 63 -> exists m e, of_int n = S754_finite false m e.
Proof.
  intros Hn. destruct n as [|p|p]; try lia.
  unfold of_int, binary_normalize, binary_round, shl_align, fexp, emin, prec, emax.
  pose proof (digits2_pos_bounds p) as [Hlo Hhi].
  set (d := Zpos (digits2_pos p)) in *.
  assert (0 < d) by (unfold d; lia).
  destruct (Z.max (d + 0 - 53) (3 - 1024 - 53) - 0) as [|q|q] eqn:Ek.
  - apply binary_round_aux_finite; lia.
  - apply binary_round_aux_finite; lia.
  - apply binary_round_aux_finite; [|lia].
    change (Pos.iter xO p q) with (shift_pos q p).
    rewrite shift_pos_correct.
    change (Zpower_pos 2 q) with (2 ^ Zpos q).
    assert (Zpos q = 53 - d) as Eq by lia.
    assert (0 < 2 ^ Zpos q) by (apply Z.pow_pos_nonneg; lia).
    split; [nia|].
    assert (2 ^ Zpos q * 2 ^ d = 2 ^ 53) as E53
      by (rewrite <- Z.pow_add_r by lia; f_equal; lia).
    assert (2 ^ 53 < 2 ^ 63) by (apply Z.pow_lt_mono_r; lia).
    nia.
Qed.

Lemma div_eucl_shift (m : positive) :
  Z.div_eucl (Z.shiftl (Zpos m) 53) (Zpos m) = (2 ^ 53, 0).
Proof.
  rewrite Z.shiftl_mul_pow2 by lia.
  pose proof (Z.div_eucl_eq (Z.pos m * 2 ^ 53) (Z.pos m) ltac:(lia)) as E.
  pose proof (Z.mod_pos_bound (Z.pos m * 2 ^ 53) (Z.pos m) ltac:(lia)) as B.
  unfold Z.modulo in B.
  destruct (Z.div_eucl (Z.pos m * 2 ^ 53) (Z.pos m)) as [q r].
  assert (r = 0 /\ q = 2 ^ 53) as [-> ->]; [|reflexivity].
  assert (Z.pos m * (2 ^ 53 - q) = r) by lia.
  assert (2 ^ 53 - q = 0 \/ 2 ^ 53 - q >= 1 \/ 2 ^ 53 - q <= -1)
    as [K|[K|K]] by lia.
  - split; nia.
  - exfalso. nia.
  - exfalso. nia.
Qed.

(** A finite, non-zero binary64 divided by itself is exactly 1.0. *)
Lemma div_self (s : bool) (m : positive) (e : Z) :
  div (S754_finite s m e) (S754_finite s m e) = one.
Proof.
  unfold div, SFdiv, SFdiv_core_binary, prec, emax.
  replace (Zdigits2 (Z.pos m) + e - (Zdigits2 (Z.pos m) + e)) with 0 by lia.
  replace (e - e) with 0 by lia.
  change (Z.min (fexp 53 1024 0) 0) with (-53).
  change (0 - -53) with 53.
  cbv iota beta zeta.
  rewrite div_eucl_shift.
  replace (new_location (Z.pos m) 0) with loc_Exact.
  - rewrite xorb_nilpotent. vm_compute. reflexivity.
  - unfold new_location, new_location_even, new_location_odd.
    destruct (Z.even (Z.pos m)); reflexivity.
Qed.

(** NaN propagates through the arithmetic of [score]. *)
Lemma div_nan_l (y : float64) : div nan y = nan.
Proof. reflexivity. Qed.

Lemma mul_nan_r (x : float64) : mul x nan = nan.
Proof. destruct x; reflexivity. Qed.

Lemma mul_nan_l (y : float64) : mul nan y = nan.
Proof. reflexivity. Qed.

Lemma zero_div_zero : true_divide 0 0 = nan.
Proof. reflexivity. Qed.

End Float64Facts.

(** ** Arrays *)

Section ArrayFacts.
Context {A B : Type}.

Lemma elements_amap (f : A -> B) (a : ndarray A) :
  elements (amap f a) = map f (elements a).
Proof.
  destruct a as [v|m rows]; simpl; [reflexivity|].
  now rewrite concat_map.
Qed.

Lemma amap_ext_in (f g : A -> B) (a : ndarray A) :
  (forall x, In x (elements a) -> f x = g x) -> amap f a = amap g a.
Proof.
  destruct a as [v|m rows]; simpl; intros Hfg.
  - f_equal. now apply map_ext_in.
  - f_equal. apply map_ext_in. intros r Hr. apply map_ext_in.
    intros x Hx. apply Hfg, in_concat. eauto.
Qed.

Lemma amap_amap {C} (f : A -> B) (g : B -> C) (a : ndarray A) :
  amap g (amap f a) = amap (fun x => g (f x)) a.
Proof.
  destruct a as [v|m rows]; simpl; f_equal.
  - apply map_map.
  - rewrite map_map. apply map_ext. intros r. apply map_map.
Qed.
End ArrayFacts.

(** ** The two [predict] methods, step by step *)

Section PredictFacts.
Context {data P : Type} `{Validation data} `{KenchiBase.Detector data P}.
Context {data' Q : Type} `{OutlierDetection.Detector data' Q}.

(** [kenchi/base]: with a float threshold that the scoring call leaves in
    place, [predict] compares every score with it. *)
Lemma kenchi_predict_float (X X' : data) (s s' : KenchiBase.self P)
      (t t' : float64) (a : ndarray float64) :
  check_array X = Ok X' ->
  KenchiBase._threshold s = Some (PyFloat t) ->
  KenchiBase.compute_anomaly_score X' s = (Ok a, s') ->
  KenchiBase._threshold s' = Some (PyFloat t') ->
  KenchiBase.predict X s
  = (Ok (amap (fun x => if float_gt x t' then 1 else 0) a), s').
Proof.
  intros HX Ht Ha Ht'.
  unfold KenchiBase.predict, bind, lift, getattr, ret.
  rewrite HX, Ht. cbn [isinstance_float]. rewrite Ha, Ht'.
  cbn [greater]. unfold astype_int32. now rewrite amap_amap.
Qed.

(** [outlier_detection]: on a fitted detector [predict] compares every
    score with the supplied threshold, or with [threshold_] when none is
    supplied. *)
Lemma outlier_predict (X : option data') (threshold : option float64)
      (r r' : OutlierDetection.self Q) (t0 : float64) (b : ndarray float64) :
  OutlierDetection.threshold_ r = Some t0 ->
  OutlierDetection.anomaly_score X r = (Ok b, r') ->
  OutlierDetection.predict X threshold r
  = (Ok (amap (fun x => if float_le x (match threshold with
                                       | Some u => u
                                       | None => t0
                                       end) then 1 else -1) b), r').
Proof.
  intros Ht Hb.
  unfold OutlierDetection.predict, bind, check_is_fitted, getattr, ret.
  rewrite Ht. destruct threshold as [u|]; rewrite ?Ht, Hb;
    unfold where_, less_equal; now rewrite amap_amap.
Qed.

End PredictFacts.

(** ** C1: the label conventions *)

(** C1 (corrected).  On a fitted detector whose scoring call returns the
    array [a] (resp. [b]), [predict] of [kenchi/base] with a float threshold
    [t] returns 1 where the score exceeds [t] and 0 elsewhere;
    [predict] of [outlier_detection] returns 1 where the score is [<=] the
    threshold in force and -1 elsewhere, which is -1 exactly where the score
    exceeds the threshold as long as neither is NaN.  Every label is in
    {0, 1}, resp. {1, -1}. *)
Theorem C1_predict_labels
    {data P : Type} `{Validation data} `{KenchiBase.Detector data P}
    {data' Q : Type} `{OutlierDetection.Detector data' Q}
    (X X' : data) (s : KenchiBase.self P) (t : float64) (a : ndarray float64)
    (Xo : option data') (threshold : option float64)
    (r r' : OutlierDetection.self Q) (t0 : float64) (b : ndarray float64) :
  check_array X = Ok X' ->
  KenchiBase._threshold s = Some (PyFloat t) ->
  KenchiBase.compute_anomaly_score X' s = (Ok a, s) ->
  OutlierDetection.threshold_ r = Some t0 ->
  OutlierDetection.anomaly_score Xo r = (Ok b, r') ->
  let u := match threshold with Some u => u | None => t0 end in
  (KenchiBase.predict X s
   = (Ok (amap (fun x => if float_gt x t then 1 else 0) a), s)) /\
  (OutlierDetection.predict Xo threshold r
   = (Ok (amap (fun x => if float_le x u then 1 else -1) b), r')) /\
  (is_nan u = false ->
   Forall (fun x => is_nan x = false) (elements b) ->
   OutlierDetection.predict Xo threshold r
   = (Ok (amap (fun x => if float_gt x u then -1 else 1) b), r')) /\
  (forall l, In l (elements (amap (fun x => if float_gt x t then 1 else 0) a)) ->
             l = 0 \/ l = 1) /\
  (forall l, In l (elements (amap (fun x => if float_le x u then 1 else -1) b)) ->
             l = 1 \/ l = -1).
Proof.
  intros HX Ht Ha Ht0 Hb u.
  split; [|split; [|split; [|split]]].
  - now apply kenchi_predict_float with (X' := X') (t := t).
  - now apply outlier_predict.
  - intros Hu Hnan.
    rewrite (outlier_predict Xo threshold r r' t0 b Ht0 Hb). fold u.
    do 2 f_equal. apply amap_ext_in. intros x Hx.
    rewrite Forall_forall in Hnan.
    rewrite (float_le_negb_gt x u (Hnan x Hx) Hu).
    now destruct (float_gt x u).
  - intros l. rewrite elements_amap, in_map_iff. intros (x & <- & _).
    destruct (float_gt x t); auto.
  - intros l. rewrite elements_amap, in_map_iff. intros (x & <- & _).
    destruct (float_le x u); auto.
Qed.

(** C1 as the specification states it fails on a sample whose score is NaN: the
    nearest-neighbour detector fitted on [0; 10] with threshold 0.5 scores
    the sample NaN as NaN, which does not exceed 0.5, and [predict] labels
    it -1.  A NaN threshold supplied by the caller does the same to the
    sample 0, whose score 0 does not exceed NaN. *)
Lemma C1_counterexample :
  let r := nn_fitted half true [zero; ten] in
  (OutlierDetection.anomaly_score (Some [nan]) r = (Ok (Arr1 [nan]), r) /\
   float_gt nan half = false /\
   OutlierDetection.predict (Some [nan]) None r = (Ok (Arr1 [-1]), r)) /\
  (OutlierDetection.anomaly_score (Some [zero]) r = (Ok (Arr1 [zero]), r) /\
   float_gt zero nan = false /\
   OutlierDetection.predict (Some [zero]) (Some nan) r = (Ok (Arr1 [-1]), r)).
Proof. vm_compute. repeat split. Qed.

Lemma C1_predict_labels_witness :
  let X := [[zero]; [ten]; [half]] in
  let s := feature_fitted (PyFloat half) in
  let r := nn_fitted half true [zero; ten] in
  (check_array X = Ok X /\
   KenchiBase._threshold s = Some (PyFloat half) /\
   KenchiBase.compute_anomaly_score X s = (Ok (Arr1 [zero; ten; half]), s) /\
   OutlierDetection.threshold_ r = Some half /\
   OutlierDetection.anomaly_score (Some [zero; three]) r
   = (Ok (Arr1 [zero; three]), r)) /\
  KenchiBase.predict X s = (Ok (Arr1 [0; 1; 0]), s) /\
  OutlierDetection.predict (Some [zero; three]) None r
  = (Ok (Arr1 [1; -1]), r).
Proof.
  intros X s r.
  assert (check_array X = Ok X) as H1 by reflexivity.
  assert (KenchiBase._threshold s = Some (PyFloat half)) as H2
    by reflexivity.
  assert (KenchiBase.compute_anomaly_score X s
          = (Ok (Arr1 [zero; ten; half]), s)) as H3 by reflexivity.
  assert (OutlierDetection.threshold_ r = Some half) as H4
    by reflexivity.
  assert (OutlierDetection.anomaly_score (Some [zero; three]) r
          = (Ok (Arr1 [zero; three]), r)) as H5 by reflexivity.
  split; [repeat split; assumption|].
  destruct (C1_predict_labels X X s half _ _ None r r half _
              H1 H2 H3 H4 H5) as (K1 & K2 & _).
  split; [exact K1 | exact K2].
Defined.

(** ** C10: the boundary belongs to the inliers *)

(** C10.  A sample whose score equals the scalar threshold is an inlier:
    [kenchi/base] labels it 0 and [outlier_detection] labels it 1. *)
Theorem C10_boundary_is_inlier
    {data P : Type} `{Validation data} `{KenchiBase.Detector data P}
    {data' Q : Type} `{OutlierDetection.Detector data' Q}
    (X X' : data) (s : KenchiBase.self P) (t : float64) (scores : list float64)
    (Xo : option data') (threshold : option float64)
    (r r' : OutlierDetection.self Q) (t0 : float64) (scores' : list float64)
    (i j : nat) (x y : float64) :
  check_array X = Ok X' ->
  KenchiBase._threshold s = Some (PyFloat t) ->
  KenchiBase.compute_anomaly_score X' s = (Ok (Arr1 scores), s) ->
  nth_error scores i = Some x ->
  float_eq x t = true ->
  OutlierDetection.threshold_ r = Some t0 ->
  OutlierDetection.anomaly_score Xo r = (Ok (Arr1 scores'), r') ->
  nth_error scores' j = Some y ->
  float_eq y (match threshold with Some u => u | None => t0 end) = true ->
  (exists labels,
      KenchiBase.predict X s = (Ok (Arr1 labels), s) /\
      nth_error labels i = Some 0) /\
  (exists labels,
      OutlierDetection.predict Xo threshold r = (Ok (Arr1 labels), r') /\
      nth_error labels j = Some 1).
Proof.
  intros HX Ht Ha Hi Hx Ht0 Hb Hj Hy. split.
  - exists (map (fun x => if float_gt x t then 1 else 0) scores). split.
    + exact (kenchi_predict_float X X' s s t t (Arr1 scores) HX Ht Ha Ht).
    + rewrite nth_error_map, Hi. simpl. now rewrite (float_eq_not_gt x t Hx).
  - exists (map (fun x => if float_le x (match threshold with
                                         | Some u => u
                                         | None => t0
                                         end) then 1 else -1) scores').
    split.
    + exact (outlier_predict Xo threshold r r' t0 (Arr1 scores') Ht0 Hb).
    + rewrite nth_error_map, Hj. simpl. now rewrite (float_eq_le y _ Hy).
Qed.

Lemma C10_boundary_is_inlier_witness :
  let X := [[zero]; [half]; [ten]] in
  let s := feature_fitted (PyFloat half) in
  let r := nn_fitted three true [zero; ten] in
  (check_array X = Ok X /\
   KenchiBase._threshold s = Some (PyFloat half) /\
   KenchiBase.compute_anomaly_score X s = (Ok (Arr1 [zero; half; ten]), s) /\
   nth_error [zero; half; ten] 1 = Some half /\
   float_eq half half = true /\
   OutlierDetection.threshold_ r = Some three /\
   OutlierDetection.anomaly_score (Some [three; ten]) r
   = (Ok (Arr1 [three; zero]), r) /\
   nth_error [three; zero] 0 = Some three /\
   float_eq three three = true) /\
  (exists labels,
      KenchiBase.predict X s = (Ok (Arr1 labels), s) /\
      nth_error labels 1 = Some 0) /\
  (exists labels,
      OutlierDetection.predict (Some [three; ten]) None r = (Ok (Arr1 labels), r) /\
      nth_error labels 0 = Some 1).
Proof.
  intros X s r.
  split; [repeat split|].
  apply (C10_boundary_is_inlier X X s half [zero; half; ten]
           (Some [three; ten]) None r r three [three; zero] 1 0 half three);
    reflexivity.
Defined.

(** ** C3: a supplied threshold replaces the fitted one *)

Section Override.
Context {data Q : Type} `{OutlierDetection.Detector data Q}.

Lemma outlier_predict_value (X : option data) (t : float64)
      (r : OutlierDetection.self Q) (t0 : float64) :
  OutlierDetection.threshold_ r = Some t0 ->
  value (OutlierDetection.predict X (Some t)) r
  = rbind (value (OutlierDetection.anomaly_score X) r)
          (fun b => Ok (amap (fun x => if float_le x t then 1 else -1) b)).
Proof.
  intros Ht0.
  unfold value, OutlierDetection.predict, bind, check_is_fitted, ret.
  rewrite Ht0.
  destruct (OutlierDetection.anomaly_score X r) as [[b|e] r']; simpl;
    [|reflexivity].
  unfold where_, less_equal. now rewrite amap_amap.
Qed.
End Override.

(** C3.  On a fitted detector [predict(X, threshold=t)] labels the scores
    against [t] alone: two fitted detector objects whose [anomaly_score]
    returns the same on [X] get the same prediction, whatever their fitted
    thresholds. *)
Theorem C3_threshold_override
    {data Q : Type} `{OutlierDetection.Detector data Q}
    (X : option data) (t : float64)
    (r1 r2 : OutlierDetection.self Q) (t1 t2 : float64) :
  OutlierDetection.threshold_ r1 = Some t1 ->
  OutlierDetection.threshold_ r2 = Some t2 ->
  value (OutlierDetection.anomaly_score X) r1
  = value (OutlierDetection.anomaly_score X) r2 ->
  value (OutlierDetection.predict X (Some t)) r1
  = value (OutlierDetection.predict X (Some t)) r2 /\
  value (OutlierDetection.predict X (Some t)) r1
  = rbind (value (OutlierDetection.anomaly_score X) r1)
          (fun b => Ok (amap (fun x => if float_le x t then 1 else -1) b)).
Proof.
  intros H1 H2 Hsame.
  rewrite (outlier_predict_value X t r1 t1 H1),
          (outlier_predict_value X t r2 t2 H2), Hsame.
  split; reflexivity.
Qed.

Lemma C3_threshold_override_witness :
  let r1 := nn_fitted half true [zero; ten] in
  let r2 := nn_fitted ten true [zero; ten] in
  let X := Some [zero; three; ten] in
  (OutlierDetection.threshold_ r1 = Some half /\
   OutlierDetection.threshold_ r2 = Some ten /\
   value (OutlierDetection.anomaly_score X) r1
   = value (OutlierDetection.anomaly_score X) r2) /\
  value (OutlierDetection.predict X (Some one)) r1
  = value (OutlierDetection.predict X (Some one)) r2 /\
  value (OutlierDetection.predict X (Some one)) r1 = Ok (Arr1 [1; -1; 1]).
Proof.
  intros r1 r2 X.
  assert (value (OutlierDetection.anomaly_score X) r1
          = value (OutlierDetection.anomaly_score X) r2) as Hsame by reflexivity.
  split; [repeat split|].
  destruct (C3_threshold_override X one r1 r2 half ten
              eq_refl eq_refl Hsame) as [K1 K2].
  split; [exact K1 | exact K2].
Defined.

(** ** C4: [predict] before [fit] *)

(** C4 as the specification states it fails for [kenchi/base]: an unfitted detector
    raises [AttributeError] there, not the not-fitted error. *)
Lemma C4_counterexample :
  KenchiBase.predict [[zero]] (feature_unfitted (PyFloat half))
  = (Raise AttributeError, feature_unfitted (PyFloat half)).
Proof. reflexivity. Qed.

(** C4 (corrected).  On a detector that has not been fitted [predict]
    returns no labels in either variant and leaves the object as it was:
    [outlier_detection] raises [NotFittedError]; [kenchi/base] raises what
    [check_array] raises, and [AttributeError] when [check_array] accepts
    the input. *)
Theorem C4_predict_before_fit
    {data P : Type} `{Validation data} `{KenchiBase.Detector data P}
    {data' Q : Type} `{OutlierDetection.Detector data' Q}
    (X : data) (s : KenchiBase.self P)
    (Xo : option data') (threshold : option float64)
    (r : OutlierDetection.self Q) :
  KenchiBase._threshold s = None ->
  OutlierDetection.threshold_ r = None ->
  OutlierDetection.predict Xo threshold r = (Raise NotFittedError, r) /\
  KenchiBase.predict X s
  = (match check_array X with
     | Ok _ => Raise AttributeError
     | Raise e => Raise e
     end, s) /\
  is_ok (value (KenchiBase.predict X) s) = false.
Proof.
  intros Hs Hr.
  assert (KenchiBase.predict X s
          = (match check_array X with
             | Ok _ => Raise AttributeError
             | Raise e => Raise e
             end, s)) as E.
  { unfold KenchiBase.predict, bind, lift, getattr.
    destruct (check_array X) as [X'|e]; [|reflexivity].
    now rewrite Hs. }
  split; [|split].
  - unfold OutlierDetection.predict, bind, check_is_fitted. now rewrite Hr.
  - exact E.
  - unfold value. rewrite E. simpl. now destruct (check_array X).
Qed.

Lemma C4_predict_before_fit_witness :
  let s := feature_unfitted (PyFloat half) in
  let r := nn_unfitted half true in
  (KenchiBase._threshold s = None /\ OutlierDetection.threshold_ r = None) /\
  OutlierDetection.predict (Some [zero]) None r = (Raise NotFittedError, r) /\
  KenchiBase.predict [[zero]] s = (Raise AttributeError, s) /\
  KenchiBase.predict [] s = (Raise ValueError, s).
Proof.
  intros s r.
  split; [split; reflexivity|].
  destruct (C4_predict_before_fit [[zero]] s (Some [zero]) None r
              eq_refl eq_refl) as (K1 & K2 & _).
  destruct (C4_predict_before_fit [] s (Some [zero]) None r
              eq_refl eq_refl) as (_ & K3 & _).
  split; [exact K1 | split; [exact K2 | exact K3]].
Defined.

(** ** C7: a per-column threshold *)

Section PerColumn.

Lemma broadcast_same_length {A B C} (f : A -> B -> C) (xs : list A) (ys : list B) :
  length xs = length ys -> broadcast f xs ys = Ok (zip_with f xs ys).
Proof.
  intros E. unfold broadcast. now rewrite E, Nat.eqb_refl.
Qed.

Lemma mapM_broadcast (ts : list float64) (rows : list (list float64)) :
  Forall (fun r => length r = length ts) rows ->
  mapM (fun r => broadcast float_gt r ts) rows
  = Ok (map (fun r => zip_with float_gt r ts) rows).
Proof.
  induction 1 as [|r rows Hr _ IH]; simpl; [reflexivity|].
  now rewrite (broadcast_same_length _ _ _ Hr), IH.
Qed.

Lemma existsb_zip_with (row ts : list float64) :
  existsb (fun b => b) (zip_with float_gt row ts) = true
  <-> exceeds_somewhere row ts.
Proof.
  revert ts. induction row as [|x row IH]; intros [|t ts]; simpl.
  - split; [discriminate|]. intros (j & x & t & Hx & _). now destruct j.
  - split; [discriminate|]. intros (j & x & t' & Hx & _). now destruct j.
  - split; [discriminate|]. intros (j & x' & t & _ & Ht & _). now destruct j.
  - rewrite orb_true_iff, IH. split.
    + intros [Hgt|(j & x' & t' & Hx & Ht & Hgt)].
      * exists 0%nat, x, t. auto.
      * exists (S j), x', t'. auto.
    + intros ([|j] & x' & t' & Hx & Ht & Hgt); simpl in Hx, Ht.
      * left. congruence.
      * right. exists j, x', t'. auto.
Qed.

End PerColumn.

(** C7.  On a [kenchi/base] detector fitted with a per-column threshold
    [ts], whose scoring call returns one row of per-column scores for each
    sample, [predict] labels a sample 1 exactly when its score exceeds the
    threshold in at least one column, and 0 when it does so in none. *)
Theorem C7_per_column_threshold
    {data P : Type} `{Validation data} `{KenchiBase.Detector data P}
    (X X' : data) (s : KenchiBase.self P) (ts : list float64)
    (rows : list (list float64)) :
  check_array X = Ok X' ->
  KenchiBase._threshold s = Some (PyArray ts) ->
  KenchiBase.compute_anomaly_score X' s = (Ok (Arr2 (length ts) rows), s) ->
  well_formed (Arr2 (length ts) rows) ->
  exists labels,
    KenchiBase.predict X s = (Ok (Arr1 labels), s) /\
    Forall2 (fun row l =>
               (l = 1 /\ exceeds_somewhere row ts) \/
               (l = 0 /\ ~ exceeds_somewhere row ts))
            rows labels.
Proof.
  intros HX Ht Ha Hwf. simpl in Hwf.
  exists (map (fun row => if existsb (fun b => b) (zip_with float_gt row ts)
                          then 1 else 0) rows).
  split.
  - unfold KenchiBase.predict, bind, lift, getattr, ret.
    rewrite HX, Ht. cbn [isinstance_float]. rewrite Ha, Ht.
    cbn [greater]. unfold broadcast_len. rewrite Nat.eqb_refl.
    rewrite (mapM_broadcast ts rows Hwf). cbn [rbind any_axis1].
    unfold astype_int32. cbn [amap]. now rewrite !map_map.
  - clear. induction rows as [|row rows IH]; simpl; constructor; [|exact IH].
    destruct (existsb (fun b => b) (zip_with float_gt row ts)) eqn:E.
    + left. split; [reflexivity|]. now apply existsb_zip_with.
    + right. split; [reflexivity|]. intros Hex.
      apply existsb_zip_with in Hex. congruence.
Qed.

Lemma C7_per_column_threshold_witness :
  let X := [[zero; zero]; [ten; zero]; [zero; ten]; [half; three]] in
  let s := feature_fitted (PyArray [half; three]) in
  (check_array X = Ok X /\
   KenchiBase._threshold s = Some (PyArray [half; three]) /\
   KenchiBase.compute_anomaly_score X s = (Ok (Arr2 2 X), s) /\
   well_formed (Arr2 2 X)) /\
  exists labels,
    KenchiBase.predict X s = (Ok (Arr1 labels), s) /\
    Forall2 (fun row l =>
               (l = 1 /\ exceeds_somewhere row [half; three]) \/
               (l = 0 /\ ~ exceeds_somewhere row [half; three]))
            X labels.
Proof.
  intros X s.
  assert (well_formed (Arr2 2 X)) as Hwf by (repeat constructor).
  split; [repeat split; exact Hwf|].
  exact (C7_per_column_threshold X X s [half; three] X
           eq_refl eq_refl eq_refl Hwf).
Defined.

(** ** C2: [fit_predict] *)

(** C2 as the specification states it fails for [outlier_detection]: [fit_predict] calls
    [predict] without [X].  The nearest-neighbour detector then scores each
    training sample against the other ones, while [predict(X)] scores each
    against all of them, itself included. *)
Lemma C2_counterexample :
  let r := nn_unfitted half true in
  let X := [zero; ten] in
  value (OutlierDetection.fit_predict X None None) r = Ok (Arr1 [-1; -1]) /\
  value (_ <- OutlierDetection.fit X ;; OutlierDetection.predict (Some X) None) r
  = Ok (Arr1 [1; 1]).
Proof. vm_compute. split; reflexivity. Qed.

(** C2 (corrected).  In [kenchi/base], [fit_predict(X, y)] is [fit(X, y)]
    followed by [predict(X)] on the same object.  In [outlier_detection],
    [fit_predict(X)] is [fit(X)] followed by [predict()] with [X] left at
    [None], for every detector; it is [fit(X)] followed by [predict(X)] when
    the fitted detector scores [None] as it scores [X]. *)
Theorem C2_fit_predict
    {data P : Type} `{Validation data} `{KenchiBase.Detector data P}
    {data' Q : Type} `{OutlierDetection.Detector data' Q}
    (X : data) (y : option (list Z)) (s : KenchiBase.self P)
    (X' : data') (y' : option (list Z)) (threshold : option float64)
    (r : OutlierDetection.self Q) :
  KenchiBase.fit_predict X y s
  = (match KenchiBase.fit X y s with
     | (Ok _, s') => KenchiBase.predict X s'
     | (Raise e, s') => (Raise e, s')
     end) /\
  OutlierDetection.fit_predict X' y' threshold r
  = (match OutlierDetection.fit X' r with
     | (Ok _, r') => OutlierDetection.predict None threshold r'
     | (Raise e, r') => (Raise e, r')
     end) /\
  (forall r',
      OutlierDetection.fit X' r = (Ok tt, r') ->
      OutlierDetection.anomaly_score None r'
      = OutlierDetection.anomaly_score (Some X') r' ->
      OutlierDetection.fit_predict X' y' threshold r
      = OutlierDetection.predict (Some X') threshold r').
Proof.
  split; [reflexivity|]. split; [reflexivity|].
  intros r' Hfit Hsame.
  unfold OutlierDetection.fit_predict, bind. rewrite Hfit.
  unfold OutlierDetection.predict, bind, check_is_fitted, getattr, ret.
  destruct (OutlierDetection.threshold_ r') as [t0|] eqn:Ht; [|reflexivity].
  destruct threshold as [t|]; rewrite ?Ht, Hsame; reflexivity.
Qed.

Lemma C2_fit_predict_witness :
  let s := feature_unfitted (PyFloat half) in
  let loo := nn_unfitted half true in
  let loo' := nn_fitted half true [zero; ten] in
  let r := nn_unfitted half false in
  let r' := nn_fitted half false [zero; ten] in
  (OutlierDetection.fit [zero; ten] r = (Ok tt, r') /\
   OutlierDetection.anomaly_score None r'
   = OutlierDetection.anomaly_score (Some [zero; ten]) r') /\
  KenchiBase.fit_predict [[zero]; [ten]] None s
  = (Ok (Arr1 [0; 1]), feature_fitted (PyFloat half)) /\
  OutlierDetection.fit_predict [zero; ten] None None loo
  = OutlierDetection.predict None None loo' /\
  OutlierDetection.fit_predict [zero; ten] None None loo
  = (Ok (Arr1 [-1; -1]), loo') /\
  OutlierDetection.fit_predict [zero; ten] None None r
  = OutlierDetection.predict (Some [zero; ten]) None r'.
Proof.
  intros s loo loo' r r'.
  assert (OutlierDetection.fit [zero; ten] r = (Ok tt, r')) as Hfit
    by reflexivity.
  assert (OutlierDetection.anomaly_score None r'
          = OutlierDetection.anomaly_score (Some [zero; ten]) r') as Hsame
    by reflexivity.
  split; [split; assumption|].
  destruct (C2_fit_predict [[zero]; [ten]] None s [zero; ten] None None loo)
    as (K1 & K2 & _).
  destruct (C2_fit_predict [[zero]; [ten]] None s [zero; ten] None None r)
    as (_ & _ & K3).
  split; [exact K1|]. split; [exact K2|]. split; [exact K2|].
  exact (K3 r' Hfit Hsame).
Defined.

(** ** C9: [predict] and [score] leave the detector as it was *)

Section Frame.
Context {data P : Type} `{Validation data} `{KenchiBase.Detector data P}.
Context {data' Q : Type} `{OutlierDetection.Detector data' Q}.

Hypothesis compute_pure :
  forall (X : data) (s : KenchiBase.self P),
    exec (KenchiBase.compute_anomaly_score X) s = s.
Hypothesis anomaly_pure :
  forall (X : option data') (r : OutlierDetection.self Q),
    exec (OutlierDetection.anomaly_score X) r = r.

Lemma kenchi_predict_frame (X : data) (s : KenchiBase.self P) :
  exec (KenchiBase.predict X) s = s.
Proof.
  unfold exec, KenchiBase.predict, bind, lift, getattr, ret.
  destruct (check_array X) as [X'|e]; [|reflexivity].
  destruct (KenchiBase._threshold s) as [t|] eqn:Ht; [|reflexivity].
  pose proof (compute_pure X' s) as Hc. unfold exec in Hc.
  destruct (isinstance_float t);
    destruct (KenchiBase.compute_anomaly_score X' s) as [[a|e] s']; simpl in Hc;
    subst s'; try reflexivity; rewrite Ht;
    destruct (greater a t) as [c|e]; try reflexivity.
  now destruct (any_axis1 c).
Qed.

Lemma kenchi_score_frame (X : data) (y : list Z) (s : KenchiBase.self P) :
  exec (KenchiBase.score X y) s = s.
Proof.
  unfold exec, KenchiBase.score, bind, lift, raise, ret.
  destruct (check_X_y X y) as [[X' y']|e]; [|reflexivity]. cbn [fst snd].
  pose proof (kenchi_predict_frame X' s) as Hp. unfold exec in Hp.
  destruct (KenchiBase.predict X' s) as [[p|e] s']; simpl in Hp; subst s';
    [|reflexivity].
  destruct (confusion_matrix y' p [1; 0]) as [cnf|e]; [|reflexivity].
  destruct (ravel cnf) as [|a [|b [|c [|d [|? ?]]]]]; reflexivity.
Qed.

Lemma outlier_predict_frame (X : option data') (t : option float64)
      (r : OutlierDetection.self Q) :
  exec (OutlierDetection.predict X t) r = r.
Proof.
  unfold exec, OutlierDetection.predict, bind, check_is_fitted, getattr, ret.
  destruct (OutlierDetection.threshold_ r) as [t0|] eqn:Ht; [|reflexivity].
  pose proof (anomaly_pure X r) as Ha. unfold exec in Ha.
  destruct t as [t|]; rewrite ?Ht;
    destruct (OutlierDetection.anomaly_score X r) as [[a|e] r'];
    simpl in Ha; subst r'; reflexivity.
Qed.

End Frame.

(** C9.  For a detector whose scoring method leaves the object as it finds
    it, any sequence of [predict] calls (either variant) and any sequence of
    [score] calls leaves the object, its learned threshold included, exactly
    as it was, whether the calls return or raise. *)
Theorem C9_queries_leave_state
    {data P : Type} `{Validation data} `{KenchiBase.Detector data P}
    {data' Q : Type} `{OutlierDetection.Detector data' Q}
    (Xs : list data) (Xys : list (data * list Z))
    (Xts : list (option data' * option float64))
    (s : KenchiBase.self P) (r : OutlierDetection.self Q) :
  (forall X s, exec (KenchiBase.compute_anomaly_score X) s = s) ->
  (forall X r, exec (OutlierDetection.anomaly_score X) r = r) ->
  fold_left (fun s X => exec (KenchiBase.predict X) s) Xs s = s /\
  fold_left (fun s Xy => exec (KenchiBase.score (fst Xy) (snd Xy)) s) Xys s = s /\
  fold_left (fun r Xt => exec (OutlierDetection.predict (fst Xt) (snd Xt)) r) Xts r
  = r.
Proof.
  intros Hc Ha. split; [|split].
  - induction Xs as [|X Xs IH]; simpl; [reflexivity|].
    now rewrite (kenchi_predict_frame Hc).
  - induction Xys as [|Xy Xys IH]; simpl; [reflexivity|].
    now rewrite (kenchi_score_frame Hc).
  - induction Xts as [|Xt Xts IH]; simpl; [reflexivity|].
    now rewrite (outlier_predict_frame Ha).
Qed.

Lemma C9_queries_leave_state_witness :
  let s := feature_fitted (PyFloat half) in
  let r := nn_fitted half true [zero; ten] in
  let Xs := [[[zero]; [ten]]; []; [[three]]] in
  let Xys := [([[zero]; [ten]], [0; 1]); ([[zero]], [0; 1])] in
  let Xts := [(None, None); (Some [three], Some one); (Some [nan], None)] in
  ((forall X (s : KenchiBase.self threshold),
       exec (KenchiBase.compute_anomaly_score X) s = s) /\
   (forall X (r : OutlierDetection.self nn_params),
       exec (OutlierDetection.anomaly_score X) r = r)) /\
  fold_left (fun s X => exec (KenchiBase.predict X) s) Xs s = s /\
  fold_left (fun s Xy => exec (KenchiBase.score (fst Xy) (snd Xy)) s) Xys s = s /\
  fold_left (fun r Xt => exec (OutlierDetection.predict (fst Xt) (snd Xt)) r) Xts r
  = r.
Proof.
  intros s r Xs Xys Xts.
  assert (forall X (s : KenchiBase.self threshold),
             exec (KenchiBase.compute_anomaly_score X) s = s) as Hc.
  { intros X [t p]. unfold exec. simpl. now destruct p. }
  assert (forall X (r : OutlierDetection.self nn_params),
             exec (OutlierDetection.anomaly_score X) r = r) as Ha.
  { intros [X|] r0; reflexivity. }
  split; [split; assumption|].
  exact (C9_queries_leave_state Xs Xys Xts s r Hc Ha).
Defined.

(** ** C5 and C6: the score *)

Section ScoreFacts.

Lemma count_pairs_count (a b : Z) (y p : list Z) :
  count_pairs a b y p = ScoreSpec.count a b y p.
Proof.
  unfold count_pairs. revert p.
  induction y as [|yi y IH]; intros [|pi p]; simpl; try reflexivity.
  rewrite <- IH.
  destruct ((yi =? a) && (pi =? b)); simpl length; lia.
Qed.

Lemma count_absent (a b : Z) (y p : list Z) :
  ~ In a y -> ScoreSpec.count a b y p = 0.
Proof.
  revert p. induction y as [|yi y IH]; intros [|pi p] Hnot;
    cbn [ScoreSpec.count]; try reflexivity.
  rewrite IH by (intros Hin; apply Hnot; now right).
  destruct (Z.eqb_spec yi a) as [->|_]; [|reflexivity].
  exfalso. apply Hnot. now left.
Qed.

Lemma count_bounds (a b : Z) (y p : list Z) :
  0 <= ScoreSpec.count a b y p <= Z.of_nat (length y).
Proof.
  revert p. induction y as [|yi y IH]; intros [|pi p];
    cbn [ScoreSpec.count length]; try lia.
  specialize (IH p). destruct ((yi =? a) && (pi =? b)); lia.
Qed.

(** Two different predicted labels split the samples of a true class. *)
Lemma count_disjoint (a b c : Z) (y p : list Z) :
  b <> c ->
  ScoreSpec.count a b y p + ScoreSpec.count a c y p <= Z.of_nat (length y).
Proof.
  intros Hbc. revert p.
  induction y as [|yi y IH]; intros [|pi p];
    cbn [ScoreSpec.count length]; try lia.
  specialize (IH p).
  destruct (Z.eqb_spec yi a), (Z.eqb_spec pi b), (Z.eqb_spec pi c);
    cbn [andb]; lia.
Qed.

Lemma count_diag_present (a : Z) (y : list Z) :
  In a y -> 0 < ScoreSpec.count a a y y.
Proof.
  induction y as [|yi y IH]; cbn [ScoreSpec.count In]; [tauto|].
  pose proof (count_bounds a a y y) as Hb.
  intros [->|Hin].
  - rewrite Z.eqb_refl. cbn [andb]. lia.
  - specialize (IH Hin). destruct ((yi =? a) && (yi =? a)); lia.
Qed.

Lemma count_off_diag (a b : Z) (y : list Z) :
  a <> b -> ScoreSpec.count a b y y = 0.
Proof.
  intros Hab. induction y as [|yi y IH]; cbn [ScoreSpec.count]; [reflexivity|].
  rewrite IH.
  destruct (Z.eqb_spec yi a), (Z.eqb_spec yi b); cbn [andb]; lia.
Qed.

Lemma wrap64_small (z : Z) : 0 <= z < 2 ^ 63 -> wrap64 z = z.
Proof.
  intros Hz. unfold wrap64.
  rewrite Z.mod_small; [lia|].
  change (2 ^ 64) with (2 * 2 ^ 63). lia.
Qed.

Lemma true_divide_self (n : Z) : 0 < n < 2 ^ 63 -> true_divide n n = one.
Proof.
  intros Hn. unfold true_divide.
  destruct (of_int_finite n Hn) as (m & e & ->). apply div_self.
Qed.

Lemma confusion_matrix_binary (y p : list Z) :
  length y = length p ->
  In 1 y \/ In 0 y ->
  confusion_matrix y (Arr1 p) [1; 0]
  = Ok [[ScoreSpec.tp y p; ScoreSpec.fn y p];
        [ScoreSpec.fp y p; ScoreSpec.tn y p]].
Proof.
  intros Hlen Hin. unfold confusion_matrix. cbn [column_or_1d rbind].
  rewrite Hlen, Nat.eqb_refl. cbn [negb forallb].
  assert (negb (existsb (Z.eqb 1) y) && (negb (existsb (Z.eqb 0) y) && true)
          = false) as ->.
  { destruct Hin as [Hin|Hin].
    - assert (existsb (Z.eqb 1) y = true) as ->; [|reflexivity].
      apply existsb_exists. exists 1. split; [exact Hin|apply Z.eqb_refl].
    - assert (existsb (Z.eqb 0) y = true) as ->;
        [|now destruct (existsb (Z.eqb 1) y)].
      apply existsb_exists. exists 0. split; [exact Hin|apply Z.eqb_refl]. }
  cbn [map]. now rewrite !count_pairs_count.
Qed.

Context {data P : Type} `{Validation data} `{KenchiBase.Detector data P}.

(** [score], once validation and prediction have gone through. *)
Lemma score_unfold (X X' : data) (y y' p : list Z) (s s' : KenchiBase.self P) :
  check_X_y X y = Ok (X', y') ->
  KenchiBase.predict X' s = (Ok (Arr1 p), s') ->
  length y' = length p ->
  In 1 y' \/ In 0 y' ->
  KenchiBase.score X y s
  = (Ok (ScoreSpec.harmonic_mean
           (true_divide (ScoreSpec.tn y' p)
                        (add_int64 (ScoreSpec.fp y' p) (ScoreSpec.tn y' p)))
           (true_divide (ScoreSpec.tp y' p)
                        (add_int64 (ScoreSpec.tp y' p) (ScoreSpec.fn y' p)))),
     s').
Proof.
  intros Hc Hp Hlen Hin.
  unfold KenchiBase.score, bind, lift, ret.
  rewrite Hc. cbn [fst snd]. rewrite Hp.
  rewrite (confusion_matrix_binary y' p Hlen Hin). reflexivity.
Qed.

End ScoreFacts.

(** C5 as the specification states it fails: with no sample of class 1 in [y] the score
    is NaN, returned as an ordinary value. *)
Lemma C5_counterexample :
  KenchiBase.score [[zero]; [ten]] [0; 0] (feature_fitted (PyFloat half))
  = (Ok nan, feature_fitted (PyFloat half)).
Proof. vm_compute. reflexivity. Qed.

(** C5 (corrected).  When validation and prediction go through and exactly
    one of the classes 0 and 1 occurs in [y], [score] raises nothing: it
    returns NaN. *)
Theorem C5_absent_class_gives_nan
    {data P : Type} `{Validation data} `{KenchiBase.Detector data P}
    (X X' : data) (y y' p : list Z) (s s' : KenchiBase.self P) :
  check_X_y X y = Ok (X', y') ->
  KenchiBase.predict X' s = (Ok (Arr1 p), s') ->
  length y' = length p ->
  (In 1 y' /\ ~ In 0 y') \/ (In 0 y' /\ ~ In 1 y') ->
  KenchiBase.score X y s = (Ok nan, s').
Proof.
  intros Hc Hp Hlen Habs.
  rewrite (score_unfold X X' y y' p s s' Hc Hp Hlen) by tauto.
  do 2 f_equal. unfold ScoreSpec.harmonic_mean.
  destruct Habs as [[_ Hy0]|[_ Hy1]].
  - unfold ScoreSpec.fp, ScoreSpec.tn. rewrite !(count_absent 0) by exact Hy0.
    change (true_divide 0 (add_int64 0 0)) with nan.
    now rewrite mul_nan_r, mul_nan_l.
  - unfold ScoreSpec.tp, ScoreSpec.fn. rewrite !(count_absent 1) by exact Hy1.
    change (true_divide 0 (add_int64 0 0)) with nan.
    now rewrite mul_nan_r.
Qed.

Lemma C5_absent_class_gives_nan_witness :
  let X := [[zero]; [ten]; [three]] in
  let s := feature_fitted (PyFloat half) in
  (check_X_y X [1; 1; 1] = Ok (X, [1; 1; 1]) /\
   KenchiBase.predict X s = (Ok (Arr1 [0; 1; 1]), s) /\
   length [1; 1; 1] = length [0; 1; 1] /\
   ((In 1 [1; 1; 1] /\ ~ In 0 [1; 1; 1]) \/ (In 0 [1; 1; 1] /\ ~ In 1 [1; 1; 1]))) /\
  KenchiBase.score X [1; 1; 1] s = (Ok nan, s).
Proof.
  intros X s.
  assert ((In 1 [1; 1; 1] /\ ~ In 0 [1; 1; 1]) \/ (In 0 [1; 1; 1] /\ ~ In 1 [1; 1; 1]))
    as Habs.
  { left. split; [now left|]. simpl. intros [K|[K|[K|[]]]]; discriminate. }
  split; [repeat split; exact Habs|].
  exact (C5_absent_class_gives_nan X X [1; 1; 1] [1; 1; 1] [0; 1; 1] s s
           eq_refl eq_refl eq_refl Habs).
Defined.

(** C6.  When validation and prediction go through and both classes occur
    in [y], [score] is the harmonic mean of the specificity tn/(fp+tn) and
    the sensitivity tp/(tp+fn) of the confusion matrix of [y] versus the
    prediction; it is exactly 1.0 when the prediction equals [y]. *)
Theorem C6_score_is_harmonic_mean
    {data P : Type} `{Validation data} `{KenchiBase.Detector data P}
    (X X' : data) (y y' p : list Z) (s s' : KenchiBase.self P) :
  check_X_y X y = Ok (X', y') ->
  KenchiBase.predict X' s = (Ok (Arr1 p), s') ->
  length y' = length p ->
  In 0 y' -> In 1 y' ->
  Z.of_nat (length y') < 2 ^ 63 ->
  KenchiBase.score X y s
  = (Ok (ScoreSpec.harmonic_mean (ScoreSpec.specificity y' p)
                                 (ScoreSpec.sensitivity y' p)), s') /\
  (p = y' -> KenchiBase.score X y s = (Ok one, s')).
Proof.
  intros Hc Hp Hlen Hy0 Hy1 Hbound.
  assert (KenchiBase.score X y s
          = (Ok (ScoreSpec.harmonic_mean (ScoreSpec.specificity y' p)
                                         (ScoreSpec.sensitivity y' p)), s')) as E.
  { rewrite (score_unfold X X' y y' p s s' Hc Hp Hlen) by tauto.
    unfold ScoreSpec.specificity, ScoreSpec.sensitivity, add_int64, true_divide.
    pose proof (count_bounds 0 1 y' p). pose proof (count_bounds 0 0 y' p).
    pose proof (count_bounds 1 1 y' p). pose proof (count_bounds 1 0 y' p).
    pose proof (count_disjoint 0 1 0 y' p ltac:(lia)).
    pose proof (count_disjoint 1 1 0 y' p ltac:(lia)).
    unfold ScoreSpec.fp, ScoreSpec.tn, ScoreSpec.tp, ScoreSpec.fn in *.
    rewrite !wrap64_small by lia. reflexivity. }
  split; [exact E|].
  intros ->. rewrite E. do 2 f_equal.
  unfold ScoreSpec.specificity, ScoreSpec.sensitivity,
    ScoreSpec.fp, ScoreSpec.tn, ScoreSpec.tp, ScoreSpec.fn.
  rewrite (count_off_diag 0 1), (count_off_diag 1 0) by lia.
  rewrite Z.add_0_l, Z.add_0_r.
  pose proof (count_diag_present 0 y' Hy0). pose proof (count_diag_present 1 y' Hy1).
  pose proof (count_bounds 0 0 y' y'). pose proof (count_bounds 1 1 y' y').
  fold (true_divide (ScoreSpec.count 0 0 y' y') (ScoreSpec.count 0 0 y' y')).
  fold (true_divide (ScoreSpec.count 1 1 y' y') (ScoreSpec.count 1 1 y' y')).
  rewrite !true_divide_self by lia.
  vm_compute. reflexivity.
Qed.

Lemma C6_score_is_harmonic_mean_witness :
  let X := [[zero]; [ten]; [three]; [half]] in
  let y := [0; 1; 1; 0] in
  let s := feature_fitted (PyFloat half) in
  (check_X_y X y = Ok (X, y) /\
   KenchiBase.predict X s = (Ok (Arr1 y), s) /\
   length y = length y /\
   In 0 y /\ In 1 y /\
   Z.of_nat (length y) < 2 ^ 63) /\
  KenchiBase.score X y s = (Ok one, s).
Proof.
  intros X y s.
  assert (In 0 y) as Hy0 by (now left).
  assert (In 1 y) as Hy1 by (right; now left).
  assert (Z.of_nat (length y) < 2 ^ 63) as Hb by (simpl; lia).
  split; [repeat split; assumption|].
  exact (proj2 (C6_score_is_harmonic_mean X X y y y s s
                  eq_refl eq_refl eq_refl Hy0 Hy1 Hb) eq_refl).
Defined.

(** ** Running a list of plotting calls *)

Section ScriptFacts.
Import PlotSpec.
Context `{Visualization.Backend}.

Lemma first_error_app (cs cs' : list Visualization.call) :
  first_error (cs ++ cs')
  = match first_error cs with
    | Some e => Some e
    | None => first_error cs'
    end.
Proof.
  induction cs as [|c cs IH]; cbn [app first_error]; [reflexivity|].
  now destruct (Visualization.perform c).
Qed.

Lemma attempted_app (cs cs' : list Visualization.call) :
  attempted (cs ++ cs')
  = attempted cs ++ match first_error cs with
                    | Some _ => []
                    | None => attempted cs'
                    end.
Proof.
  induction cs as [|c cs IH]; cbn [app first_error attempted]; [reflexivity|].
  destruct (Visualization.perform c); [now rewrite IH | reflexivity].
Qed.

Lemma script_ret {A} (a : A) : script (ret a) [] (Ok a).
Proof. intros log. unfold ret, outcome. cbn. now rewrite app_nil_r. Qed.

Lemma script_lift {A} (r : result A) : script (lift r) [] r.
Proof. intros log. unfold lift, outcome. cbn. now rewrite app_nil_r. Qed.

Lemma script_emit (c : Visualization.call) :
  script (Visualization.emit c) [c] (Ok tt).
Proof.
  intros log. unfold Visualization.emit, outcome. cbn.
  now destruct (Visualization.perform c) as [[]|e].
Qed.

Lemma script_when_given {A} (x : option A) (f : A -> Visualization.call) :
  script (Visualization.when_given x f) (given x f) (Ok tt).
Proof.
  destruct x as [a|]; [apply script_emit | apply script_ret].
Qed.

Lemma script_bind {A B} (m : M (list Visualization.call) A)
      (k : A -> M (list Visualization.call) B)
      (cs cs' : list Visualization.call) (a : A) (r : result B) :
  script m cs (Ok a) -> script (k a) cs' r -> script (bind m k) (cs ++ cs') r.
Proof.
  intros Hm Hk log. unfold bind. rewrite (Hm log).
  unfold outcome. rewrite first_error_app, attempted_app.
  destruct (first_error cs) as [e|].
  - now rewrite app_nil_r.
  - rewrite (Hk (log ++ attempted cs)). unfold outcome.
    now rewrite app_assoc.
Qed.

Lemma script_bind_raise {A B} (m : M (list Visualization.call) A)
      (k : A -> M (list Visualization.call) B)
      (cs : list Visualization.call) (e : exn) :
  script m cs (Raise e) -> script (bind m k) cs (Raise e).
Proof.
  intros Hm log. unfold bind. rewrite (Hm log).
  unfold outcome. now destruct (first_error cs).
Qed.

Lemma script_eq {A} (m : M (list Visualization.call) A)
      (cs cs' : list Visualization.call) (r : result A) :
  script m cs r -> cs = cs' -> script m cs' r.
Proof. now intros Hm <-. Qed.

(** A trace never holds more calls of a kind than the list it comes from. *)
Lemma filter_attempted_nil (p : Visualization.call -> bool)
      (cs : list Visualization.call) :
  filter p cs = [] -> filter p (attempted cs) = [].
Proof.
  induction cs as [|c cs IH]; cbn [filter attempted]; [reflexivity|].
  destruct (p c); [discriminate|]. intros Hcs.
  destruct (Visualization.perform c); [now apply IH | reflexivity].
Qed.

Lemma first_error_none_attempted (cs : list Visualization.call) :
  first_error cs = None -> attempted cs = cs.
Proof.
  induction cs as [|c cs IH]; cbn [first_error attempted]; [reflexivity|].
  destruct (Visualization.perform c); [|discriminate].
  intros Hcs. now rewrite IH.
Qed.

Lemma first_error_in (c : Visualization.call) (e : exn)
      (cs : list Visualization.call) :
  In c cs -> Visualization.perform c = Raise e -> first_error cs <> None.
Proof.
  induction cs as [|c' cs IH]; cbn [In first_error]; [tauto|].
  intros [->|Hin] Hc.
  - rewrite Hc. discriminate.
  - destruct (Visualization.perform c'); [now apply IH | discriminate].
Qed.

Ltac plot_steps :=
  cbv beta zeta;
  repeat match goal with
         | |- script (ret _) _ _ => apply script_ret
         | |- script (lift _) _ _ => apply script_lift
         | |- script (Visualization.emit _) _ _ => apply script_emit
         | |- script (Visualization.when_given _ _) _ _ =>
             apply script_when_given
         | |- script (bind _ _) _ _ => eapply script_bind; [ | cbv beta zeta ]
         end.

(** [plot_anomaly_score] as a list of calls. *)
Lemma plot_anomaly_score_script
      (anomaly_score : list float64) (o : Visualization.options) :
  match ylim_of anomaly_score o with
  | Ok yl =>
      script (Visualization.plot_anomaly_score anomaly_score o)
             (planned anomaly_score o yl) (Ok (drawn_axes o))
  | Raise e =>
      script (Visualization.plot_anomaly_score anomaly_score o)
             (creation o) (Raise e)
  end.
Proof.
  assert (script (match Visualization.ax o with
                  | Some a => ret a
                  | None =>
                      _ <- Visualization.emit
                             (Visualization.subplots (Visualization.figsize o)) ;;
                      ret Visualization.new_axes
                  end)
                 (creation o) (Ok (drawn_axes o))) as Hax.
  { unfold creation, drawn_axes.
    destruct (Visualization.ax o) as [a|]; [apply script_ret|].
    change [Visualization.subplots (Visualization.figsize o)]
      with ([Visualization.subplots (Visualization.figsize o)] ++ []).
    eapply script_bind; [apply script_emit | apply script_ret]. }
  unfold ylim_of, Visualization.plot_anomaly_score.
  destruct (Visualization.ylim o) as [yl|] eqn:Hyl;
    [|destruct anomaly_score as [|x v]]; cbn [amax rbind].
  - destruct (Visualization.opt_hist o) eqn:Hh.
    + eapply script_eq; [eapply script_bind; [exact Hax|]; plot_steps|].
      unfold planned, drawing, saving, xlim_of. rewrite Hh.
      rewrite <- ?app_assoc, ?app_nil_r. reflexivity.
    + eapply script_eq; [eapply script_bind; [exact Hax|]; plot_steps|].
      unfold planned, drawing, saving, xlim_of. rewrite Hh.
      rewrite <- ?app_assoc, ?app_nil_r. reflexivity.
  - rewrite <- (app_nil_r (creation o)).
    eapply script_bind; [exact Hax|]. cbv beta zeta.
    apply script_bind_raise. apply script_bind_raise. apply script_lift.
  - destruct (Visualization.opt_hist o) eqn:Hh.
    + eapply script_eq; [eapply script_bind; [exact Hax|]; plot_steps|].
      unfold planned, drawing, saving, xlim_of. rewrite Hh.
      rewrite <- ?app_assoc, ?app_nil_r. reflexivity.
    + eapply script_eq; [eapply script_bind; [exact Hax|]; plot_steps|].
      unfold planned, drawing, saving, xlim_of. rewrite Hh.
      rewrite <- ?app_assoc, ?app_nil_r. reflexivity.
Qed.

End ScriptFacts.

(** ** C8: plotting short score arrays *)

Section Plotting.
Import String.
Import PlotSpec.

(** C8 as the specification states it fails.  For the empty array, with
    [ylim] left at its default the function takes [np.max] of the scores,
    which raises [ValueError] when there are none; the figure has been
    created by then and nothing has been drawn.  For a single score that is
    NaN, infinite, or so large that 1.1 times it overflows, a plotting
    library that refuses such axis limits makes the function raise at
    [set_ylim]. *)
Lemma C8_counterexample :
  Visualization.plot_anomaly_score [] Visualization.defaults []
  = (Raise ValueError, [Visualization.subplots None]) /\
  value (Visualization.plot_anomaly_score [nan] Visualization.defaults) []
  = Raise ValueError /\
  value (Visualization.plot_anomaly_score [S754_infinity false]
                                          Visualization.defaults) []
  = Raise ValueError /\
  value (Visualization.plot_anomaly_score [max_float] Visualization.defaults) []
  = Raise ValueError.
Proof. repeat split; reflexivity. Qed.

(** C8 (corrected).  With the default options and whatever the plotting
    library does: for the empty array the function never completes, it
    raises [ValueError] as soon as the axes have been created (or the error
    of that creation); for a single-element array [x] it makes the calls
    listed, with the limits (0, 0) and (0, 1.1 * x), until one of them
    raises, and returns the axes exactly when all of them return.  With a
    library that refuses axis limits that are NaN or infinite, it therefore
    raises when 1.1 * x is NaN or infinite. *)
Theorem C8_plot_short_arrays `{Visualization.Backend}
    (x : float64) (log : list Visualization.call) :
  Visualization.plot_anomaly_score [] Visualization.defaults log
  = (outcome [Visualization.subplots None] (Raise ValueError),
     log ++ [Visualization.subplots None]) /\
  (let calls :=
     [Visualization.subplots None;
      Visualization.set_xlabel Visualization.new_axes "Samples";
      Visualization.set_ylabel Visualization.new_axes "Anomaly score";
      Visualization.set_xlim Visualization.new_axes (zero, zero);
      Visualization.set_ylim Visualization.new_axes (zero, mul one_point_one x);
      Visualization.grid Visualization.new_axes true;
      Visualization.plot Visualization.new_axes [0] [x];
      Visualization.make_axes_locatable Visualization.new_axes;
      Visualization.append_axes Visualization.new_axes;
      Visualization.hist_set_ylim (zero, mul one_point_one x);
      Visualization.hist_set_tick_params;
      Visualization.hist_grid true;
      Visualization.hist [x] (Visualization.bins_str "fd")] in
   Visualization.plot_anomaly_score [x] Visualization.defaults log
   = (outcome calls (Ok Visualization.new_axes), log ++ attempted calls)) /\
  ((forall ax lim, limits_finite lim = false ->
                   Visualization.perform (Visualization.set_ylim ax lim)
                   = Raise ValueError) ->
   is_finite (mul one_point_one x) = false ->
   is_ok (value (Visualization.plot_anomaly_score [x] Visualization.defaults) log)
   = false).
Proof.
  pose proof (plot_anomaly_score_script [] Visualization.defaults) as H0.
  pose proof (plot_anomaly_score_script [x] Visualization.defaults) as H1.
  cbn in H0, H1.
  split; [|split].
  - rewrite (H0 log). cbn.
    now destruct (Visualization.perform (Visualization.subplots None)).
  - exact (H1 log).
  - intros Hlim Hx. unfold value. rewrite (H1 log). cbn [fst].
    unfold outcome.
    destruct (first_error _) as [e|] eqn:E; [reflexivity|].
    exfalso. revert E.
    apply (first_error_in
             (Visualization.set_ylim Visualization.new_axes
                                     (zero, mul one_point_one x)) ValueError).
    + cbn. tauto.
    + apply Hlim. unfold limits_finite. cbn [fst snd]. now rewrite Hx.
Qed.

Lemma C8_plot_short_arrays_witness :
  ((forall ax lim, limits_finite lim = false ->
                   Visualization.perform (Visualization.set_ylim ax lim)
                   = Raise ValueError) /\
   is_finite (mul one_point_one nan) = false /\
   is_finite (mul one_point_one max_float) = false) /\
  is_ok (value (Visualization.plot_anomaly_score [nan] Visualization.defaults) [])
  = false /\
  is_ok (value (Visualization.plot_anomaly_score [max_float]
                                                 Visualization.defaults) [])
  = false /\
  value (Visualization.plot_anomaly_score [three] Visualization.defaults) []
  = Ok Visualization.new_axes.
Proof.
  assert (forall ax lim, limits_finite lim = false ->
                         Visualization.perform (Visualization.set_ylim ax lim)
                         = Raise ValueError) as Hlim.
  { intros ax lim Hl. cbn. now rewrite Hl. }
  split; [repeat split; exact Hlim|].
  split; [|split].
  - exact (proj2 (proj2 (C8_plot_short_arrays nan [])) Hlim eq_refl).
  - exact (proj2 (proj2 (C8_plot_short_arrays max_float [])) Hlim eq_refl).
  - exact (f_equal fst (proj1 (proj2 (C8_plot_short_arrays three [])))).
Defined.

End Plotting.

(** * Further properties of the plots *)

Section PlotFacts.
Import PlotSpec.
Context `{Visualization.Backend}.

Lemma filter_given (p : Visualization.call -> bool) {A} (x : option A)
      (f : A -> Visualization.call) :
  (forall a, p (f a) = false) -> filter p (given x f) = [].
Proof.
  intros Hf. destruct x as [a|]; cbn; [now rewrite Hf | reflexivity].
Qed.

Lemma no_savefig_before_saving (anomaly_score : list float64)
      (o : Visualization.options) (yl : Visualization.limits) :
  filter is_savefig (creation o ++ drawing anomaly_score o yl) = [].
Proof.
  unfold creation, drawing.
  rewrite !filter_app, !filter_given by reflexivity.
  now destruct (Visualization.ax o), (Visualization.opt_hist o).
Qed.

Lemma no_subplots_after_creation (anomaly_score : list float64)
      (o : Visualization.options) (yl : Visualization.limits) :
  filter is_subplots (drawing anomaly_score o yl ++ saving o) = [].
Proof.
  unfold saving, drawing.
  rewrite !filter_app, !filter_given by reflexivity.
  now destruct (Visualization.opt_hist o).
Qed.

(** X11.  Whatever the options and whatever the plotting library does,
    [plot_anomaly_score] makes a fixed list of calls, one after the other
    until one raises.  It raises an error of its own only when the scores
    are empty and [ylim] is not given: the [ValueError] of [np.max], once
    the figure is created and before any other call.  Otherwise it returns
    the axes it drew on when all calls return, and raises the error of the
    first call that raises. *)
Theorem X11_plot_own_error_iff_empty_without_ylim
    (anomaly_score : list float64) (o : Visualization.options)
    (log : list Visualization.call) :
  Visualization.plot_anomaly_score anomaly_score o log
  = match ylim_of anomaly_score o with
    | Ok yl =>
        (outcome (planned anomaly_score o yl) (Ok (drawn_axes o)),
         log ++ attempted (planned anomaly_score o yl))
    | Raise e =>
        (outcome (creation o) (Raise e), log ++ attempted (creation o))
    end /\
  ylim_of anomaly_score o
  = match anomaly_score, Visualization.ylim o with
    | _, Some yl => Ok yl
    | [], None => Raise ValueError
    | x :: v, None => Ok (zero, mul one_point_one (fold_left maximum v x))
    end.
Proof.
  split.
  - pose proof (plot_anomaly_score_script anomaly_score o) as Hs.
    destruct (ylim_of anomaly_score o); exact (Hs log).
  - unfold ylim_of.
    now destruct (Visualization.ylim o), anomaly_score.
Qed.

(** X12.  The figure is saved only when a [filepath] is given, at most
    once, and as the very last call.  With a [filepath], either [savefig]
    is the last call made, or the function raised before reaching it. *)
Theorem X12_figure_saved_last_iff_filepath
    (anomaly_score : list float64) (o : Visualization.options) :
  let calls := exec (Visualization.plot_anomaly_score anomaly_score o) [] in
  match Visualization.filepath o with
  | None => filter is_savefig calls = []
  | Some f =>
      (filter is_savefig calls = [] /\
       is_ok (value (Visualization.plot_anomaly_score anomaly_score o) [])
       = false) \/
      (filter is_savefig calls = [Visualization.savefig (drawn_axes o) f] /\
       last calls (Visualization.subplots None)
       = Visualization.savefig (drawn_axes o) f)
  end.
Proof.
  unfold exec, value.
  pose proof (plot_anomaly_score_script anomaly_score o) as Hs.
  destruct (ylim_of anomaly_score o) as [yl|e]; rewrite (Hs []);
    cbn [fst snd app].
  - unfold planned. rewrite app_assoc.
    set (body := creation o ++ drawing anomaly_score o yl).
    pose proof (no_savefig_before_saving anomaly_score o yl) as Hbody.
    fold body in Hbody.
    pose proof (filter_attempted_nil is_savefig body Hbody) as Hatt.
    unfold outcome. rewrite first_error_app, attempted_app, filter_app, Hatt.
    unfold saving.
    destruct (Visualization.filepath o) as [f|]; cbn [given].
    + destruct (first_error body) as [e|] eqn:E.
      * left. split; reflexivity.
      * right. cbn [attempted filter is_savefig app]. split.
        -- now destruct (Visualization.perform _).
        -- assert (forall l, l ++ [Visualization.savefig (drawn_axes o) f]
                             = l ++ Visualization.savefig (drawn_axes o) f
                                    :: match Visualization.perform
                                               (Visualization.savefig (drawn_axes o) f)
                                       with
                                       | Ok _ => []
                                       | Raise _ => []
                                       end) as Hl
             by (intros l; now destruct (Visualization.perform _)).
           rewrite <- Hl. apply last_last.
    + cbn [first_error attempted]. now destruct (first_error body).
  - assert (filter is_savefig (creation o) = []) as Hc
      by (unfold creation; now destruct (Visualization.ax o)).
    rewrite (filter_attempted_nil is_savefig _ Hc).
    destruct (Visualization.filepath o) as [f|]; [|reflexivity].
    left. split; [reflexivity|]. unfold outcome.
    now destruct (first_error (creation o)).
Qed.

(** X13.  With axes passed in, the function creates no figure: no call of
    [plt.subplots] is made.  Without them it makes exactly one, before any
    other call. *)
Theorem X13_no_figure_created_on_given_axes
    (anomaly_score : list float64) (o : Visualization.options) :
  let calls := exec (Visualization.plot_anomaly_score anomaly_score o) [] in
  match Visualization.ax o with
  | Some _ => filter is_subplots calls = []
  | None =>
      filter is_subplots calls = [Visualization.subplots (Visualization.figsize o)] /\
      hd_error calls = Some (Visualization.subplots (Visualization.figsize o))
  end.
Proof.
  unfold exec.
  pose proof (plot_anomaly_score_script anomaly_score o) as Hs.
  destruct (ylim_of anomaly_score o) as [yl|e]; rewrite (Hs []);
    cbn [fst snd app].
  - unfold planned.
    pose proof (no_subplots_after_creation anomaly_score o yl) as Hrest.
    pose proof (filter_attempted_nil is_subplots _ Hrest) as Hatt.
    unfold creation.
    destruct (Visualization.ax o) as [a|]; cbn [app]; [exact Hatt|].
    cbn [attempted filter is_subplots hd_error].
    destruct (Visualization.perform _); [now rewrite Hatt | now split].
  - unfold creation.
    destruct (Visualization.ax o) as [a|]; cbn; [reflexivity|].
    now destruct (Visualization.perform _).
Qed.

End PlotFacts.

(** * Further properties of the detector layer *)

(** ** Shapes [predict] of [kenchi/base] refuses *)

Section ShapeFacts.

Lemma broadcast_fails_iff {A B C} (f : A -> B -> C) (xs : list A) (ys : list B) :
  is_ok (broadcast f xs ys)
  = match broadcast_len (length xs) (length ys) with
    | Some _ => true
    | None => false
    end.
Proof.
  unfold broadcast, broadcast_len.
  destruct (Nat.eqb (length xs) (length ys)); [reflexivity|].
  destruct xs as [|x [|x' xs]]; simpl; try reflexivity;
    destruct ys as [|y [|y' ys]]; reflexivity.
Qed.

Lemma mapM_broadcast_one (t : float64) (rows : list (list float64)) :
  mapM (fun r => broadcast float_gt r [t]) rows
  = Ok (map (map (fun x => float_gt x t)) rows).
Proof.
  induction rows as [|r rows IH]; simpl; [reflexivity|].
  rewrite IH.
  destruct r as [|x [|x' r]]; reflexivity.
Qed.

Lemma existsb_map_gt (t : float64) (row : list float64) :
  existsb (fun b => b) (map (fun x => float_gt x t) row) = true
  <-> exists x, In x row /\ float_gt x t = true.
Proof.
  rewrite existsb_exists. split.
  - intros (b & Hin & Hb). apply in_map_iff in Hin.
    destruct Hin as (x & <- & Hx). eauto.
  - intros (x & Hx & Hgt). exists (float_gt x t). split; [|exact Hgt].
    apply in_map_iff. eauto.
Qed.

End ShapeFacts.

(** X1.  [kenchi/base], array threshold, one score per sample: [predict]
    never returns labels.  It raises [AxisError] from [np.any(..., axis=1)]
    when the scores broadcast against the threshold, and the [ValueError]
    of the failed broadcast otherwise; the detector is left as it was. *)
Theorem X1_array_threshold_needs_2d_scores
    {data P : Type} `{Validation data} `{KenchiBase.Detector data P}
    (X X' : data) (s : KenchiBase.self P) (ts v : list float64) :
  check_array X = Ok X' ->
  KenchiBase._threshold s = Some (PyArray ts) ->
  KenchiBase.compute_anomaly_score X' s = (Ok (Arr1 v), s) ->
  KenchiBase.predict X s
  = (match broadcast_len (length v) (length ts) with
     | Some _ => Raise AxisError
     | None => Raise ValueError
     end, s).
Proof.
  intros HX Ht Ha.
  unfold KenchiBase.predict, bind, lift, getattr, ret.
  rewrite HX, Ht. cbn [isinstance_float]. rewrite Ha, Ht. cbn [greater].
  pose proof (broadcast_fails_iff float_gt v ts) as Hb.
  destruct (broadcast float_gt v ts) as [c|e] eqn:E;
    destruct (broadcast_len (length v) (length ts)); simpl in Hb;
    try discriminate; try reflexivity.
  simpl. unfold broadcast in E.
  destruct (Nat.eqb (length v) (length ts)); [discriminate|].
  destruct v as [|x [|x' v]], ts as [|y [|y' ts]]; try discriminate;
    now inversion E.
Qed.

Lemma X1_array_threshold_needs_2d_scores_witness :
  let s1 := KenchiBase.mk_self (Some (PyArray [half; three])) (PyFloat half) in
  (check_array [[zero; ten]; [ten; zero]] = Ok [[zero; ten]; [ten; zero]] /\
   KenchiBase._threshold s1 = Some (PyArray [half; three]) /\
   KenchiBase.compute_anomaly_score [[zero; ten]; [ten; zero]] s1
   = (Ok (Arr1 [zero; ten]), s1)) /\
  KenchiBase.predict [[zero; ten]; [ten; zero]] s1 = (Raise AxisError, s1) /\
  KenchiBase.predict [[zero]; [ten]; [half]] s1 = (Raise ValueError, s1).
Proof.
  intros s1.
  split; [repeat split|].
  split.
  - exact (X1_array_threshold_needs_2d_scores
             [[zero; ten]; [ten; zero]] [[zero; ten]; [ten; zero]] s1
             [half; three] [zero; ten] eq_refl eq_refl eq_refl).
  - exact (X1_array_threshold_needs_2d_scores
             [[zero]; [ten]; [half]] [[zero]; [ten]; [half]] s1
             [half; three] [zero; ten; half] eq_refl eq_refl eq_refl).
Defined.

(** X2.  [kenchi/base], per-column scores against an array threshold of
    another length, neither length being one: [predict] raises the
    [ValueError] of the failed broadcast, also when there are no samples. *)
Theorem X2_column_mismatch_raises
    {data P : Type} `{Validation data} `{KenchiBase.Detector data P}
    (X X' : data) (s : KenchiBase.self P) (ts : list float64)
    (m : nat) (rows : list (list float64)) :
  check_array X = Ok X' ->
  KenchiBase._threshold s = Some (PyArray ts) ->
  KenchiBase.compute_anomaly_score X' s = (Ok (Arr2 m rows), s) ->
  m <> length ts -> m <> 1%nat -> length ts <> 1%nat ->
  KenchiBase.predict X s = (Raise ValueError, s).
Proof.
  intros HX Ht Ha Hm Hm1 Hk1.
  unfold KenchiBase.predict, bind, lift, getattr, ret.
  rewrite HX, Ht. cbn [isinstance_float]. rewrite Ha, Ht. cbn [greater].
  unfold broadcast_len.
  destruct (Nat.eqb_spec m (length ts)); [contradiction|].
  destruct (Nat.eqb_spec m 1); [contradiction|].
  destruct (Nat.eqb_spec (length ts) 1); [contradiction|].
  reflexivity.
Qed.

Lemma X2_column_mismatch_raises_witness :
  let X := [[zero; ten; half]; [ten; zero; half]] in
  let s := Examples.feature_fitted (PyArray [half; three]) in
  (check_array X = Ok X /\
   KenchiBase._threshold s = Some (PyArray [half; three]) /\
   KenchiBase.compute_anomaly_score X s = (Ok (Arr2 3 X), s) /\
   3%nat <> length [half; three] /\ 3%nat <> 1%nat /\
   length [half; three] <> 1%nat) /\
  KenchiBase.predict X s = (Raise ValueError, s).
Proof.
  intros X s.
  assert (3%nat <> length [half; three]) as H1 by (simpl; lia).
  assert (3%nat <> 1%nat) as H2 by lia.
  assert (length [half; three] <> 1%nat) as H3 by (simpl; lia).
  split; [repeat split; assumption|].
  exact (X2_column_mismatch_raises X X s [half; three] 3 X
           eq_refl eq_refl eq_refl H1 H2 H3).
Defined.

(** X3.  [kenchi/base], an array threshold with a single entry [t]: the
    entry is broadcast to every column, so a sample is labelled 1 exactly
    when one of its scores exceeds [t], whatever the number of columns. *)
Theorem X3_single_entry_threshold_broadcasts
    {data P : Type} `{Validation data} `{KenchiBase.Detector data P}
    (X X' : data) (s : KenchiBase.self P) (t : float64)
    (m : nat) (rows : list (list float64)) :
  check_array X = Ok X' ->
  KenchiBase._threshold s = Some (PyArray [t]) ->
  KenchiBase.compute_anomaly_score X' s = (Ok (Arr2 m rows), s) ->
  exists labels,
    KenchiBase.predict X s = (Ok (Arr1 labels), s) /\
    Forall2 (fun row l =>
               (l = 1 /\ exists x, In x row /\ float_gt x t = true) \/
               (l = 0 /\ forall x, In x row -> float_gt x t = false))
            rows labels.
Proof.
  intros HX Ht Ha.
  exists (map (fun row => if existsb (fun b => b) (map (fun x => float_gt x t) row)
                          then 1 else 0) rows).
  split.
  - unfold KenchiBase.predict, bind, lift, getattr, ret.
    rewrite HX, Ht. cbn [isinstance_float]. rewrite Ha, Ht. cbn [greater].
    assert (exists m', broadcast_len m (length [t]) = Some m') as [m' ->].
    { unfold broadcast_len. cbn [length].
      destruct (Nat.eqb m 1); cbn [Nat.eqb]; eauto. }
    rewrite mapM_broadcast_one. cbn [rbind any_axis1].
    unfold astype_int32. cbn [amap]. now rewrite !map_map.
  - clear. induction rows as [|row rows IH]; simpl; constructor; [|exact IH].
    destruct (existsb (fun b => b) (map (fun x => float_gt x t) row)) eqn:E.
    + left. split; [reflexivity|]. now apply existsb_map_gt.
    + right. split; [reflexivity|]. intros x Hx.
      destruct (float_gt x t) eqn:G; [|reflexivity].
      assert (existsb (fun b => b) (map (fun x => float_gt x t) row) = true)
        by (apply existsb_map_gt; eauto).
      congruence.
Qed.

Lemma X3_single_entry_threshold_broadcasts_witness :
  let X := [[zero; zero; ten]; [zero; half; zero]] in
  let s := Examples.feature_fitted (PyArray [half]) in
  (check_array X = Ok X /\
   KenchiBase._threshold s = Some (PyArray [half]) /\
   KenchiBase.compute_anomaly_score X s = (Ok (Arr2 3 X), s)) /\
  exists labels,
    KenchiBase.predict X s = (Ok (Arr1 labels), s) /\
    Forall2 (fun row l =>
               (l = 1 /\ exists x, In x row /\ float_gt x half = true) \/
               (l = 0 /\ forall x, In x row -> float_gt x half = false))
            X labels.
Proof.
  intros X s.
  split; [repeat split|].
  exact (X3_single_entry_threshold_broadcasts X X s half 3 X
           eq_refl eq_refl eq_refl).
Defined.

(** ** The order of scores and thresholds *)

Section OrderFacts.

Lemma float_le_trans (x y z : float64) :
  float_le x y = true -> float_le y z = true -> float_le x z = true.
Proof.
  unfold float_le, SFleb.
  destruct x as [sx|sx| |sx mx ex], y as [sy|sy| |sy my ey],
           z as [sz|sz| |sz mz ez];
    simpl; try discriminate; try reflexivity;
    try (destruct sx; simpl; try discriminate; try reflexivity);
    try (destruct sy; simpl; try discriminate; try reflexivity);
    try (destruct sz; simpl; try discriminate; try reflexivity).
  all: change (Pos.compare_cont Eq) with Pos.compare;
    destruct (Z.compare_spec ex ey), (Z.compare_spec ey ez),
             (Z.compare_spec ex ez);
    try discriminate; try reflexivity; try lia; subst;
    destruct (Pos.compare_spec mx my), (Pos.compare_spec my mz),
             (Pos.compare_spec mx mz);
    simpl; try discriminate; try reflexivity; try lia.
Qed.

Lemma float_le_not_nan (x y : float64) :
  float_le x y = true -> is_nan x = false /\ is_nan y = false.
Proof. destruct x, y; simpl; try discriminate; auto. Qed.

Lemma float_gt_le_false (x t : float64) :
  float_gt x t = true -> float_le x t = false.
Proof.
  intros Hgt.
  assert (is_nan x = false /\ is_nan t = false) as [Hx Ht]
    by (destruct x, t; simpl in *; try discriminate; auto).
  rewrite (float_le_negb_gt x t Hx Ht), Hgt. reflexivity.
Qed.

(** If [y] does not exceed [t] and [x <= y], then [x] does not exceed [t]. *)
Lemma float_not_gt_below (x y t : float64) :
  float_le x y = true -> float_gt y t = false -> float_gt x t = false.
Proof.
  intros Hxy Hy.
  destruct (float_le_not_nan x y Hxy) as [Hx Hyn].
  destruct (is_nan t) eqn:Ht.
  - now destruct (nan_unordered x t (or_intror Ht)).
  - pose proof (float_le_negb_gt y t Hyn Ht) as E. rewrite Hy in E.
    pose proof (float_le_trans x y t Hxy E) as Hxt.
    rewrite (float_le_negb_gt x t Hx Ht) in Hxt.
    now destruct (float_gt x t).
Qed.

End OrderFacts.

(** X4.  Away from NaN the two label conventions say the same thing: for
    the same scores and the same scalar threshold, the prediction of
    [outlier_detection] is that of [kenchi/base] with 0 turned into 1 and 1
    into -1. *)
Theorem X4_conventions_agree_without_nan
    {data P : Type} `{Validation data} `{KenchiBase.Detector data P}
    {data' Q : Type} `{OutlierDetection.Detector data' Q}
    (X X' : data) (s : KenchiBase.self P)
    (Xo : option data') (threshold : option float64)
    (r r' : OutlierDetection.self Q) (t0 t : float64) (a : ndarray float64) :
  check_array X = Ok X' ->
  KenchiBase._threshold s = Some (PyFloat t) ->
  KenchiBase.compute_anomaly_score X' s = (Ok a, s) ->
  OutlierDetection.threshold_ r = Some t0 ->
  OutlierDetection.anomaly_score Xo r = (Ok a, r') ->
  match threshold with Some u => u | None => t0 end = t ->
  is_nan t = false ->
  Forall (fun x => is_nan x = false) (elements a) ->
  exists labels,
    KenchiBase.predict X s = (Ok labels, s) /\
    OutlierDetection.predict Xo threshold r
    = (Ok (amap (fun l => 1 - 2 * l) labels), r').
Proof.
  intros HX Ht Ha Ht0 Hb Hu Hnan Hall.
  exists (amap (fun x => if float_gt x t then 1 else 0) a). split.
  - exact (kenchi_predict_float X X' s s t t a HX Ht Ha Ht).
  - rewrite (outlier_predict Xo threshold r r' t0 a Ht0 Hb), Hu, amap_amap.
    do 2 f_equal. apply amap_ext_in. intros x Hx.
    rewrite Forall_forall in Hall.
    rewrite (float_le_negb_gt x t (Hall x Hx) Hnan).
    now destruct (float_gt x t).
Qed.

Lemma X4_conventions_agree_without_nan_witness :
  let X := [[zero]; [three]; [half]] in
  let s := feature_fitted (PyFloat half) in
  let r := nn_fitted half true [zero; ten] in
  (check_array X = Ok X /\
   KenchiBase._threshold s = Some (PyFloat half) /\
   KenchiBase.compute_anomaly_score X s = (Ok (Arr1 [zero; three; half]), s) /\
   OutlierDetection.threshold_ r = Some half /\
   OutlierDetection.anomaly_score (Some [zero; three; half]) r
   = (Ok (Arr1 [zero; three; half]), r) /\
   half = half /\
   is_nan half = false /\
   Forall (fun x => is_nan x = false) [zero; three; half]) /\
  exists labels,
    KenchiBase.predict X s = (Ok labels, s) /\
    OutlierDetection.predict (Some [zero; three; half]) None r
    = (Ok (amap (fun l => 1 - 2 * l) labels), r).
Proof.
  intros X s r.
  assert (Forall (fun x => is_nan x = false) [zero; three; half]) as Hall
    by (repeat constructor).
  split; [repeat split; exact Hall|].
  exact (X4_conventions_agree_without_nan X X s (Some [zero; three; half]) None
           r r half half (Arr1 [zero; three; half])
           eq_refl eq_refl eq_refl eq_refl eq_refl eq_refl eq_refl Hall).
Defined.

(** X5.  On NaN the two variants disagree: a sample whose score is NaN, or
    any sample when the threshold is NaN, is an inlier (0) for [kenchi/base]
    and an outlier (-1) for [outlier_detection]. *)
Theorem X5_nan_inlier_here_outlier_there
    {data P : Type} `{Validation data} `{KenchiBase.Detector data P}
    {data' Q : Type} `{OutlierDetection.Detector data' Q}
    (X X' : data) (s : KenchiBase.self P)
    (Xo : option data') (threshold : option float64)
    (r r' : OutlierDetection.self Q) (t0 t : float64) (scores : list float64)
    (i : nat) (x : float64) :
  check_array X = Ok X' ->
  KenchiBase._threshold s = Some (PyFloat t) ->
  KenchiBase.compute_anomaly_score X' s = (Ok (Arr1 scores), s) ->
  OutlierDetection.threshold_ r = Some t0 ->
  OutlierDetection.anomaly_score Xo r = (Ok (Arr1 scores), r') ->
  match threshold with Some u => u | None => t0 end = t ->
  nth_error scores i = Some x ->
  is_nan x = true \/ is_nan t = true ->
  exists labels labels',
    KenchiBase.predict X s = (Ok (Arr1 labels), s) /\
    OutlierDetection.predict Xo threshold r = (Ok (Arr1 labels'), r') /\
    nth_error labels i = Some 0 /\
    nth_error labels' i = Some (-1).
Proof.
  intros HX Ht Ha Ht0 Hb Hu Hi Hnan.
  destruct (nan_unordered x t Hnan) as [Hle Hgt].
  exists (map (fun x => if float_gt x t then 1 else 0) scores),
         (map (fun x => if float_le x t then 1 else -1) scores).
  split; [|split; [|split]].
  - exact (kenchi_predict_float X X' s s t t (Arr1 scores) HX Ht Ha Ht).
  - rewrite (outlier_predict Xo threshold r r' t0 (Arr1 scores) Ht0 Hb), Hu.
    reflexivity.
  - rewrite nth_error_map, Hi. simpl. now rewrite Hgt.
  - rewrite nth_error_map, Hi. simpl. now rewrite Hle.
Qed.

Lemma X5_nan_inlier_here_outlier_there_witness :
  let X := [[zero]; [ten]] in
  let s := feature_fitted (PyFloat nan) in
  let r := nn_fitted nan true [zero] in
  (check_array X = Ok X /\
   KenchiBase._threshold s = Some (PyFloat nan) /\
   KenchiBase.compute_anomaly_score X s = (Ok (Arr1 [zero; ten]), s) /\
   OutlierDetection.threshold_ r = Some nan /\
   OutlierDetection.anomaly_score (Some [zero; ten]) r
   = (Ok (Arr1 [zero; ten]), r) /\
   nan = nan /\
   nth_error [zero; ten] 1 = Some ten /\
   (is_nan ten = true \/ is_nan nan = true)) /\
  exists labels labels',
    KenchiBase.predict X s = (Ok (Arr1 labels), s) /\
    OutlierDetection.predict (Some [zero; ten]) None r = (Ok (Arr1 labels'), r) /\
    nth_error labels 1 = Some 0 /\
    nth_error labels' 1 = Some (-1).
Proof.
  intros X s r.
  assert (is_nan ten = true \/ is_nan nan = true) as Hn by (now right).
  split; [repeat split; exact Hn|].
  exact (X5_nan_inlier_here_outlier_there X X s (Some [zero; ten]) None
           r r nan nan [zero; ten] 1 ten
           eq_refl eq_refl eq_refl eq_refl eq_refl eq_refl eq_refl Hn).
Defined.

(** X6.  Raising the threshold never turns an inlier into an outlier: for
    thresholds [t <= t'] supplied to [predict] of [outlier_detection], every
    label under [t'] is at least the label under [t]. *)
Theorem X6_labels_monotone_in_threshold
    {data Q : Type} `{OutlierDetection.Detector data Q}
    (X : option data) (r r' : OutlierDetection.self Q)
    (t0 t t' : float64) (b : ndarray float64) :
  OutlierDetection.threshold_ r = Some t0 ->
  OutlierDetection.anomaly_score X r = (Ok b, r') ->
  float_le t t' = true ->
  exists labels labels',
    OutlierDetection.predict X (Some t) r = (Ok labels, r') /\
    OutlierDetection.predict X (Some t') r = (Ok labels', r') /\
    Forall2 Z.le (elements labels) (elements labels').
Proof.
  intros Ht0 Hb Htt.
  exists (amap (fun x => if float_le x t then 1 else -1) b),
         (amap (fun x => if float_le x t' then 1 else -1) b).
  split; [|split].
  - exact (outlier_predict X (Some t) r r' t0 b Ht0 Hb).
  - exact (outlier_predict X (Some t') r r' t0 b Ht0 Hb).
  - rewrite !elements_amap.
    induction (elements b) as [|x l IH]; simpl; constructor; [|exact IH].
    destruct (float_le x t) eqn:E.
    + now rewrite (float_le_trans x t t' E Htt).
    + destruct (float_le x t'); lia.
Qed.

Lemma X6_labels_monotone_in_threshold_witness :
  let r := nn_fitted half true [zero; ten] in
  let X := Some [zero; one; three] in
  (OutlierDetection.threshold_ r = Some half /\
   OutlierDetection.anomaly_score X r = (Ok (Arr1 [zero; one; three]), r) /\
   float_le half one = true) /\
  exists labels labels',
    OutlierDetection.predict X (Some half) r = (Ok labels, r) /\
    OutlierDetection.predict X (Some one) r = (Ok labels', r) /\
    Forall2 Z.le (elements labels) (elements labels').
Proof.
  intros r X.
  split; [repeat split|].
  exact (X6_labels_monotone_in_threshold X r r half half one
           (Arr1 [zero; one; three]) eq_refl eq_refl eq_refl).
Defined.

(** X7.  Labels follow the order of the scores: within one prediction, a
    sample that scores no higher than an inlier is an inlier too, in both
    variants. *)
Theorem X7_lower_score_of_inlier_is_inlier
    {data P : Type} `{Validation data} `{KenchiBase.Detector data P}
    {data' Q : Type} `{OutlierDetection.Detector data' Q}
    (X X' : data) (s : KenchiBase.self P) (t : float64) (scores : list float64)
    (Xo : option data') (threshold : option float64)
    (r r' : OutlierDetection.self Q) (t0 : float64) (scores' : list float64)
    (i j : nat) (x y : float64) (i' j' : nat) (x' y' : float64) :
  check_array X = Ok X' ->
  KenchiBase._threshold s = Some (PyFloat t) ->
  KenchiBase.compute_anomaly_score X' s = (Ok (Arr1 scores), s) ->
  nth_error scores i = Some x ->
  nth_error scores j = Some y ->
  float_le x y = true ->
  OutlierDetection.threshold_ r = Some t0 ->
  OutlierDetection.anomaly_score Xo r = (Ok (Arr1 scores'), r') ->
  nth_error scores' i' = Some x' ->
  nth_error scores' j' = Some y' ->
  float_le x' y' = true ->
  exists labels labels',
    KenchiBase.predict X s = (Ok (Arr1 labels), s) /\
    OutlierDetection.predict Xo threshold r = (Ok (Arr1 labels'), r') /\
    (nth_error labels j = Some 0 -> nth_error labels i = Some 0) /\
    (nth_error labels' j' = Some 1 -> nth_error labels' i' = Some 1).
Proof.
  intros HX Ht Ha Hi Hj Hxy Ht0 Hb Hi' Hj' Hxy'.
  set (u := match threshold with Some u => u | None => t0 end).
  exists (map (fun x => if float_gt x t then 1 else 0) scores),
         (map (fun x => if float_le x u then 1 else -1) scores').
  split; [|split; [|split]].
  - exact (kenchi_predict_float X X' s s t t (Arr1 scores) HX Ht Ha Ht).
  - exact (outlier_predict Xo threshold r r' t0 (Arr1 scores') Ht0 Hb).
  - rewrite !nth_error_map, Hi, Hj. simpl.
    destruct (float_gt y t) eqn:Gy; [discriminate|]. intros _.
    now rewrite (float_not_gt_below x y t Hxy Gy).
  - rewrite !nth_error_map, Hi', Hj'. simpl.
    destruct (float_le y' u) eqn:Ly; [|discriminate]. intros _.
    now rewrite (float_le_trans x' y' u Hxy' Ly).
Qed.

Lemma X7_lower_score_of_inlier_is_inlier_witness :
  let X := [[half]; [three]; [zero]] in
  let s := feature_fitted (PyFloat half) in
  let r := nn_fitted one true [zero; ten] in
  let Xo := Some [one; three; half] in
  (check_array X = Ok X /\
   KenchiBase._threshold s = Some (PyFloat half) /\
   KenchiBase.compute_anomaly_score X s = (Ok (Arr1 [half; three; zero]), s) /\
   nth_error [half; three; zero] 2 = Some zero /\
   nth_error [half; three; zero] 0 = Some half /\
   float_le zero half = true /\
   OutlierDetection.threshold_ r = Some one /\
   OutlierDetection.anomaly_score Xo r = (Ok (Arr1 [one; three; half]), r) /\
   nth_error [one; three; half] 2 = Some half /\
   nth_error [one; three; half] 0 = Some one /\
   float_le half one = true) /\
  exists labels labels',
    KenchiBase.predict X s = (Ok (Arr1 labels), s) /\
    OutlierDetection.predict Xo None r = (Ok (Arr1 labels'), r) /\
    (nth_error labels 0 = Some 0 -> nth_error labels 2 = Some 0) /\
    (nth_error labels' 0 = Some 1 -> nth_error labels' 2 = Some 1).
Proof.
  intros X s r Xo.
  split; [repeat split|].
  exact (X7_lower_score_of_inlier_is_inlier X X s half [half; three; zero]
           Xo None r r one [one; three; half] 2 0 zero half 2 0 half one
           eq_refl eq_refl eq_refl eq_refl eq_refl eq_refl
           eq_refl eq_refl eq_refl eq_refl eq_refl).
Defined.

(** ** [fit_predict] and [score] on the detector object *)

(** X8.  For a detector whose scoring method leaves the object as it finds
    it, [fit_predict] leaves the object exactly as [fit] alone does, in both
    variants, whether the prediction returns or raises. *)
Theorem X8_fit_predict_leaves_what_fit_leaves
    {data P : Type} `{Validation data} `{KenchiBase.Detector data P}
    {data' Q : Type} `{OutlierDetection.Detector data' Q}
    (X : data) (y : option (list Z)) (s : KenchiBase.self P)
    (X' : data') (y' : option (list Z)) (threshold : option float64)
    (r : OutlierDetection.self Q) :
  (forall X s, exec (KenchiBase.compute_anomaly_score X) s = s) ->
  (forall X r, exec (OutlierDetection.anomaly_score X) r = r) ->
  exec (KenchiBase.fit_predict X y) s = exec (KenchiBase.fit X y) s /\
  exec (OutlierDetection.fit_predict X' y' threshold) r
  = exec (OutlierDetection.fit X') r.
Proof.
  intros Hc Ha. split.
  - unfold exec, KenchiBase.fit_predict, bind.
    destruct (KenchiBase.fit X y s) as [[[]|e] s1]; [|reflexivity].
    exact (kenchi_predict_frame Hc X s1).
  - unfold exec, OutlierDetection.fit_predict, bind.
    destruct (OutlierDetection.fit X' r) as [[[]|e] r1]; [|reflexivity].
    exact (outlier_predict_frame Ha None threshold r1).
Qed.

Lemma X8_fit_predict_leaves_what_fit_leaves_witness :
  let s := feature_unfitted (PyFloat half) in
  let r := nn_unfitted half true in
  ((forall X (s : KenchiBase.self threshold),
       exec (KenchiBase.compute_anomaly_score X) s = s) /\
   (forall X (r : OutlierDetection.self nn_params),
       exec (OutlierDetection.anomaly_score X) r = r)) /\
  exec (KenchiBase.fit_predict [[zero]; [ten]] None) s
  = feature_fitted (PyFloat half) /\
  exec (OutlierDetection.fit_predict [zero; ten] None None) r
  = nn_fitted half true [zero; ten].
Proof.
  intros s r.
  assert (forall X (s : KenchiBase.self threshold),
             exec (KenchiBase.compute_anomaly_score X) s = s) as Hc.
  { intros X [t p]. unfold exec. simpl. now destruct p. }
  assert (forall X (r : OutlierDetection.self nn_params),
             exec (OutlierDetection.anomaly_score X) r = r) as Ha.
  { intros [X|] r0; reflexivity. }
  split; [split; assumption|].
  exact (X8_fit_predict_leaves_what_fit_leaves
           [[zero]; [ten]] None s [zero; ten] None None r Hc Ha).
Defined.

(** X9.  [score] on a detector that has not been fitted never returns a
    number: it raises what [check_X_y] raises, else what [check_array]
    raises on the validated samples, else [AttributeError]; and it leaves
    the detector as it was. *)
Theorem X9_score_before_fit
    {data P : Type} `{Validation data} `{KenchiBase.Detector data P}
    (X : data) (y : list Z) (s : KenchiBase.self P) :
  KenchiBase._threshold s = None ->
  KenchiBase.score X y s
  = (match check_X_y X y with
     | Raise e => Raise e
     | Ok Xy => match check_array (fst Xy) with
                | Raise e => Raise e
                | Ok _ => Raise AttributeError
                end
     end, s).
Proof.
  intros Hs. unfold KenchiBase.score, bind, lift.
  destruct (check_X_y X y) as [[X' y']|e]; [|reflexivity]. cbn [fst snd].
  unfold KenchiBase.predict, bind, lift, getattr.
  destruct (check_array X') as [X''|e]; [|reflexivity].
  now rewrite Hs.
Qed.

Lemma X9_score_before_fit_witness :
  let s := feature_unfitted (PyFloat half) in
  KenchiBase._threshold s = None /\
  KenchiBase.score [[zero]; [ten]] [0; 1] s = (Raise AttributeError, s) /\
  KenchiBase.score [[zero]; [ten]] [0] s = (Raise ValueError, s).
Proof.
  intros s. split; [reflexivity|]. split.
  - exact (X9_score_before_fit [[zero]; [ten]] [0; 1] s eq_refl).
  - exact (X9_score_before_fit [[zero]; [ten]] [0] s eq_refl).
Defined.

(** ** The score when every prediction is wrong *)

Section WrongFacts.

Lemma count_none_right (a : Z) (y p : list Z) :
  Forall2 (fun yi pi => yi <> pi) y p -> ScoreSpec.count a a y p = 0.
Proof.
  induction 1 as [|yi pi y p Hne _ IH]; cbn [ScoreSpec.count]; [reflexivity|].
  rewrite IH.
  destruct (Z.eqb_spec yi a), (Z.eqb_spec pi a); cbn [andb]; try reflexivity.
  congruence.
Qed.

(** 0 / n for a count [n]: NaN when [n] is 0, and +0.0 otherwise. *)
Lemma zero_over_count (n : Z) :
  0 <= n < 2 ^ 63 -> true_divide 0 n = nan \/ true_divide 0 n = zero.
Proof.
  intros Hn. destruct (Z.eq_dec n 0) as [->|Hne].
  - left. reflexivity.
  - right. unfold true_divide.
    destruct (of_int_finite n ltac:(lia)) as (m & e & ->). reflexivity.
Qed.

End WrongFacts.

(** X10.  When validation and prediction go through and no prediction
    equals its label, [score] is NaN and not 0: both rates are 0 or
    undefined, and their harmonic mean divides 0 by 0. *)
Theorem X10_all_wrong_gives_nan
    {data P : Type} `{Validation data} `{KenchiBase.Detector data P}
    (X X' : data) (y y' p : list Z) (s s' : KenchiBase.self P) :
  check_X_y X y = Ok (X', y') ->
  KenchiBase.predict X' s = (Ok (Arr1 p), s') ->
  Forall2 (fun yi pi => yi <> pi) y' p ->
  In 1 y' \/ In 0 y' ->
  Z.of_nat (length y') < 2 ^ 63 ->
  KenchiBase.score X y s = (Ok nan, s').
Proof.
  intros Hc Hp Hwrong Hin Hbound.
  assert (length y' = length p) as Hlen by (eapply Forall2_length; eauto).
  rewrite (score_unfold X X' y y' p s s' Hc Hp Hlen Hin).
  do 2 f_equal. unfold ScoreSpec.harmonic_mean.
  unfold ScoreSpec.tn, ScoreSpec.tp.
  rewrite !(count_none_right _ y' p Hwrong). unfold add_int64.
  pose proof (count_bounds 0 1 y' p). pose proof (count_bounds 1 0 y' p).
  unfold ScoreSpec.fp, ScoreSpec.fn.
  rewrite Z.add_0_r, Z.add_0_l, !wrap64_small by lia.
  destruct (zero_over_count (ScoreSpec.count 0 1 y' p) ltac:(lia)) as [-> | ->];
    destruct (zero_over_count (ScoreSpec.count 1 0 y' p) ltac:(lia)) as [-> | ->];
    reflexivity.
Qed.

Lemma X10_all_wrong_gives_nan_witness :
  let X := [[zero]; [ten]; [three]] in
  let y := [1; 0; 0] in
  let s := feature_fitted (PyFloat half) in
  (check_X_y X y = Ok (X, y) /\
   KenchiBase.predict X s = (Ok (Arr1 [0; 1; 1]), s) /\
   Forall2 (fun yi pi => yi <> pi) y [0; 1; 1] /\
   (In 1 y \/ In 0 y) /\
   Z.of_nat (length y) < 2 ^ 63) /\
  KenchiBase.score X y s = (Ok nan, s).
Proof.
  intros X y s.
  assert (Forall2 (fun yi pi => yi <> pi) y [0; 1; 1]) as Hw
    by (repeat constructor; discriminate).
  assert (In 1 y \/ In 0 y) as Hin by (left; now left).
  assert (Z.of_nat (length y) < 2 ^ 63) as Hb by (simpl; lia).
  split; [repeat split; assumption|].
  exact (X10_all_wrong_gives_nan X X y y [0; 1; 1] s s
           eq_refl eq_refl Hw Hin Hb).
Defined.


(** ** [plot_graphical_model] *)

Section GraphFacts.
Import GraphicalModel.

Lemma filter_nonzero_keep (n : nat) (row : list float64) :
  filter nonzero (keep n row) = filter nonzero (firstn n row).
Proof.
  revert n. induction row as [|x row IH]; intros [|n]; cbn [keep firstn filter];
    try reflexivity.
  - rewrite (IH 0%nat). now destruct row.
  - now rewrite IH.
Qed.

Lemma filter_nonzero_tril_from (i : nat) (a : matrix) :
  filter nonzero (concat (tril_from i a))
  = filter nonzero (concat (lower_from i a)).
Proof.
  revert i. induction a as [|row a IH]; intros i; [reflexivity|].
  cbn [tril_from lower_from concat].
  now rewrite !filter_app, filter_nonzero_keep, IH.
Qed.

(** The absolute value of a non-zero entry is positive or NaN. *)
Lemma abs_nonzero_positive (x : float64) :
  nonzero x = true -> float_gt (SFabs x) zero = true \/ is_nan (SFabs x) = true.
Proof.
  destruct x as [s|s| |s m e]; simpl; auto; discriminate.
Qed.

End GraphFacts.


Section GraphWitness.
Import String.


End GraphWitness.

(** X15.  The edge widths handed to the drawing routine are the absolute
    values of the non-zero entries on and below the diagonal, row by row;
    entries above the diagonal never contribute, and every width is
    positive or NaN. *)
Theorem X15_edge_widths_from_lower_triangle (a : GraphicalModel.matrix) :
  GraphicalModel.edge_widths (GraphicalModel.tril a)
  = map SFabs (filter GraphicalModel.nonzero
                      (concat (GraphicalModel.lower_triangle a))) /\
  Forall (fun w => float_gt w zero = true \/ is_nan w = true)
         (GraphicalModel.edge_widths (GraphicalModel.tril a)).
Proof.
  unfold GraphicalModel.edge_widths, GraphicalModel.tril,
    GraphicalModel.lower_triangle.
  rewrite filter_nonzero_tril_from. split; [reflexivity|].
  apply Forall_forall. intros w Hw.
  apply in_map_iff in Hw. destruct Hw as (x & <- & Hx).
  apply filter_In in Hx. destruct Hx as [_ Hnz].
  now apply abs_nonzero_positive.
Qed.

(** ** [fit_predict], then [predict] *)

(** X16.  For a detector whose scoring method leaves the object as it finds
    it, what [fit_predict] returned after a successful [fit] is what
    [predict] returns on the detector afterwards: [predict(X)] in
    [kenchi/base], and [predict()] without [X] and with the same threshold
    in [outlier_detection]. *)
Theorem X16_predict_reproduces_fit_predict
    {data P : Type} `{Validation data} `{KenchiBase.Detector data P}
    {data' Q : Type} `{OutlierDetection.Detector data' Q}
    (X : data) (y : option (list Z)) (s s1 : KenchiBase.self P)
    (X' : data') (y' : option (list Z)) (threshold : option float64)
    (r r1 : OutlierDetection.self Q) :
  (forall X s, exec (KenchiBase.compute_anomaly_score X) s = s) ->
  (forall X r, exec (OutlierDetection.anomaly_score X) r = r) ->
  KenchiBase.fit X y s = (Ok tt, s1) ->
  OutlierDetection.fit X' r = (Ok tt, r1) ->
  value (KenchiBase.predict X) (exec (KenchiBase.fit_predict X y) s)
  = value (KenchiBase.fit_predict X y) s /\
  value (OutlierDetection.predict None threshold)
        (exec (OutlierDetection.fit_predict X' y' threshold) r)
  = value (OutlierDetection.fit_predict X' y' threshold) r.
Proof.
  intros Hc Ha Hfit Hfit'. split.
  - unfold exec, value, KenchiBase.fit_predict, bind. rewrite Hfit.
    pose proof (kenchi_predict_frame Hc X s1) as E. unfold exec in E.
    now rewrite E.
  - unfold exec, value, OutlierDetection.fit_predict, bind. rewrite Hfit'.
    pose proof (outlier_predict_frame Ha None threshold r1) as E.
    unfold exec in E. now rewrite E.
Qed.

Lemma X16_predict_reproduces_fit_predict_witness :
  let s := feature_unfitted (PyFloat half) in
  let r := nn_unfitted half true in
  ((forall X (s : KenchiBase.self threshold),
       exec (KenchiBase.compute_anomaly_score X) s = s) /\
   (forall X (r : OutlierDetection.self nn_params),
       exec (OutlierDetection.anomaly_score X) r = r) /\
   KenchiBase.fit [[zero]; [ten]] None s = (Ok tt, feature_fitted (PyFloat half)) /\
   OutlierDetection.fit [zero; ten] r = (Ok tt, nn_fitted half true [zero; ten])) /\
  value (KenchiBase.predict [[zero]; [ten]])
        (exec (KenchiBase.fit_predict [[zero]; [ten]] None) s)
  = Ok (Arr1 [0; 1]) /\
  value (OutlierDetection.predict None None)
        (exec (OutlierDetection.fit_predict [zero; ten] None None) r)
  = Ok (Arr1 [-1; -1]).
Proof.
  intros s r.
  assert (forall X (s : KenchiBase.self threshold),
             exec (KenchiBase.compute_anomaly_score X) s = s) as Hc.
  { intros X [t p]. unfold exec. simpl. now destruct p. }
  assert (forall X (r : OutlierDetection.self nn_params),
             exec (OutlierDetection.anomaly_score X) r = r) as Ha.
  { intros [X|] r0; reflexivity. }
  split; [repeat split; assumption|].
  exact (X16_predict_reproduces_fit_predict
           [[zero]; [ten]] None s (feature_fitted (PyFloat half))
           [zero; ten] None None r (nn_fitted half true [zero; ten])
           Hc Ha eq_refl eq_refl).
Defined.
